(** * Buy-vs-commute calculator: validator, cost engine and number formatter

    A shallow embedding of [src/components/buy-vs-commute-calculator.tsx].

    The component keeps its form as ten raw strings, validates them field by
    field, parses them with [parseFloat] at calculation time and computes the
    result record with IEEE 754 double arithmetic.  JavaScript numbers are
    modelled by the standard library's [spec_float] at binary64 precision
    (53 bits of mantissa, maximal exponent 1024), whose operations are
    executable functions on [Z]; a single NaN suffices because JavaScript
    cannot observe NaN payloads. *)

From Stdlib Require Import ZArith Ascii String Bool List Lia.
From Stdlib Require Import Floats.SpecFloat.
From stdpp Require Import gmap strings.

Local Open Scope string_scope.
Local Open Scope Z_scope.

(** ** JavaScript numbers *)

Module JS.

Abbreviation number := spec_float.

Definition prec : Z := 53.
Definition emax : Z := 1024.

Definition NaN : number := S754_nan.
Definition Infinity : number := S754_infinity false.

(** The operators [+], [-], [*] and [/] on numbers, rounding to nearest
    even. *)
Definition add : number -> number -> number := SFadd prec emax.
Definition sub : number -> number -> number := SFsub prec emax.
Definition mul : number -> number -> number := SFmul prec emax.
Definition div : number -> number -> number := SFdiv prec emax.

(** The relational operators; each is [false] as soon as an operand is
    NaN. *)
Definition lt (a b : number) : bool := SFltb a b.
Definition le (a b : number) : bool := SFleb a b.
Definition gt (a b : number) : bool := SFltb b a.
Definition ge (a b : number) : bool := SFleb b a.

(** Strict equality [===] on numbers: NaN differs from itself and the two
    zeros are equal. *)
Definition strict_eq (a b : number) : bool := SFeqb a b.

(** An integer literal. *)
Definition of_Z (z : Z) : number := binary_normalize prec emax z 0 false.

(** The number nearest to [m * 10 ^ e10], for a positive decimal
    mantissa: the value of a decimal literal and of a decimal string. *)
Definition of_decimal (m : positive) (e10 : Z) : number :=
  match e10 with
  | Zneg p =>
      SFdiv prec emax (S754_finite false m 0)
        (S754_finite false (Pos.pow 10 p) 0)
  | _ => binary_normalize prec emax (Zpos m * 10 ^ e10) 0 false
  end.

(** [ToBoolean]: NaN and both zeros are falsy, the empty string is falsy. *)
Definition truthy (x : number) : bool :=
  match x with
  | S754_nan | S754_zero _ => false
  | _ => true
  end.

Definition truthy_string (s : string) : bool :=
  match s with
  | EmptyString => false
  | String _ _ => true
  end.

(** [a || b] on numbers. *)
Definition or_else (a b : number) : number := if truthy a then a else b.

(** *** Characters and digit strings *)

Definition is_digit (c : ascii) : bool :=
  let n := nat_of_ascii c in (Nat.leb 48 n && Nat.leb n 57)%bool.

Definition digit_value (c : ascii) : Z := Z.of_nat (nat_of_ascii c) - 48.

(** A text is a sequence of code units below 256.  The white space and
    line terminators among them are TAB, LF, VT, FF, CR, the space and
    the no-break space U+00A0. *)
Definition is_white_space (c : ascii) : bool :=
  let n := nat_of_ascii c in
  (Nat.leb 9 n && Nat.leb n 13 || Nat.eqb n 32 || Nat.eqb n 160)%bool.

Fixpoint trim_start (s : string) : string :=
  match s with
  | String c r => if is_white_space c then trim_start r else s
  | EmptyString => s
  end.

(** Splits off the longest leading run of decimal digits. *)
Fixpoint span_digits (s : string) : string * string :=
  match s with
  | String c r =>
      if is_digit c
      then let '(d, rest) := span_digits r in (String c d, rest)
      else (EmptyString, s)
  | EmptyString => (EmptyString, EmptyString)
  end.

Fixpoint digits_value_from (acc : Z) (s : string) : Z :=
  match s with
  | String c r => digits_value_from (10 * acc + digit_value c) r
  | EmptyString => acc
  end.

Definition digits_value (s : string) : Z := digits_value_from 0 s.

Definition is_empty (s : string) : bool := negb (truthy_string s).

(** The exponent part [e], [E] with an optional sign and at least one
    digit; [0] when the text does not continue with one. *)
Definition exponent_part (s : string) : Z :=
  match s with
  | String c r =>
      if (Ascii.eqb c "e" || Ascii.eqb c "E")%bool then
        let '(neg, r') :=
          match r with
          | String "-" t => (true, t)
          | String "+" t => (false, t)
          | _ => (false, r)
          end in
        let '(ds, _) := span_digits r' in
        if is_empty ds then 0
        else if neg then - digits_value ds else digits_value ds
      else 0
  | EmptyString => 0
  end.

(** *** [parseFloat]

    Leading white space is skipped, then the longest prefix that is a
    [StrDecimalLiteral] is converted; without such a prefix the result is
    NaN.  The conversion is correctly rounded. *)
Definition parseFloat (input : string) : number :=
  let s := trim_start input in
  let '(neg, s1) :=
    match s with
    | String "-" r => (true, r)
    | String "+" r => (false, r)
    | _ => (false, s)
    end in
  if String.prefix "Infinity" s1 then S754_infinity neg
  else
    let '(ip, r1) := span_digits s1 in
    let '(fp, r2) :=
      match r1 with
      | String "." r => span_digits r
      | _ => (EmptyString, r1)
      end in
    if (is_empty ip && is_empty fp)%bool then NaN
    else
      let e10 := exponent_part r2 - Z.of_nat (String.length fp) in
      match digits_value (ip +:+ fp) with
      | Zpos m =>
          if neg then SFopp (of_decimal m e10) else of_decimal m e10
      | _ => S754_zero neg
      end.

(** *** Decimal rendering of integers *)

Definition digit_char (d : Z) : ascii := ascii_of_nat (Z.to_nat (48 + d)).

Fixpoint decimal_digits_from (fuel : nat) (n : Z) (acc : string) : string :=
  match fuel with
  | O => acc
  | S fuel' =>
      let acc' := String (digit_char (n mod 10)) acc in
      if n <? 10 then acc' else decimal_digits_from fuel' (n / 10) acc'
  end.

(** The decimal representation of a natural number, without leading
    zeros; a number has at most [1 + log2 n] decimal digits. *)
Definition decimal_digits (n : Z) : string :=
  decimal_digits_from (S (Z.to_nat (Z.log2 n))) n EmptyString.

Fixpoint zeros (n : nat) : string :=
  match n with
  | O => EmptyString
  | S n' => String "0" (zeros n')
  end.

(** *** [Number::toString]

    A positive finite number [m * 2 ^ e] is the fraction
    [numerator m e / denominator e]. *)
Definition numerator (m : positive) (e : Z) : Z := Zpos m * 2 ^ Z.max e 0.
Definition denominator (e : Z) : Z := 2 ^ Z.max (- e) 0.

Fixpoint first_scale (fuel : nat) (num den j : Z) : Z :=
  match fuel with
  | O => j
  | S fuel' =>
      if den <=? num * 10 ^ (j + 1) then j
      else first_scale fuel' num den (j + 1)
  end.

(** The decimal exponent [n] with [10 ^ (n - 1) <= num / den < 10 ^ n]. *)
Definition decimal_exponent (num den : Z) : Z :=
  if den <=? num
  then Z.of_nat (String.length (decimal_digits (num / den)))
  else - first_scale 400 num den 0.

(** The candidate with [k] digits: the neighbour [s] of
    [x / 10 ^ (n - k)] for which [s * 10 ^ (n - k)] rounds to [x], the
    closer one (the even one on a tie) when both do. *)
Definition digits_candidate (x : number) (num den n k : Z) : option Z :=
  let p := n - k in
  let ynum := num * 10 ^ Z.max (- p) 0 in
  let yden := den * 10 ^ Z.max p 0 in
  let lo := ynum / yden in
  let r := ynum mod yden in
  let hi := lo + 1 in
  let rounds_to s :=
    match s with
    | Zpos q => SFeqb (of_decimal q p) x
    | _ => false
    end in
  match rounds_to lo, rounds_to hi with
  | true, true =>
      match 2 * r ?= yden with
      | Lt => Some lo
      | Gt => Some hi
      | Eq => Some (if Z.even lo then lo else hi)
      end
  | true, false => Some lo
  | false, true => Some hi
  | false, false => None
  end.

Fixpoint shortest_digits (fuel : nat) (x : number) (num den n k : Z)
  : Z * Z * Z :=
  match fuel with
  | O => (num / den, k, n)
  | S fuel' =>
      match digits_candidate x num den n k with
      | Some s => if s =? 10 ^ k then (s / 10, k, n + 1) else (s, k, n)
      | None => shortest_digits fuel' x num den n (k + 1)
      end
  end.

(** [Number::toString] for radix 10. *)
Definition toString_positive (m : positive) (e : Z) : string :=
  let num := numerator m e in
  let den := denominator e in
  let '(s, k, n) :=
    shortest_digits 17 (S754_finite false m e) num den
      (decimal_exponent num den) 1 in
  let ds := decimal_digits s in
  if (k <=? n) && (n <=? 21) then ds +:+ zeros (Z.to_nat (n - k))
  else if (0 <? n) && (n <=? 21) then
    String.substring 0 (Z.to_nat n) ds +:+ "." +:+
    String.substring (Z.to_nat n) (Z.to_nat (k - n)) ds
  else if (-6 <? n) && (n <=? 0) then
    "0." +:+ zeros (Z.to_nat (- n)) +:+ ds
  else
    let c := if 0 <=? n - 1 then "+" else "-" in
    let d := decimal_digits (Z.abs (n - 1)) in
    if k =? 1 then ds +:+ "e" +:+ c +:+ d
    else
      String.substring 0 1 ds +:+ "." +:+
      String.substring 1 (Z.to_nat (k - 1)) ds +:+ "e" +:+ c +:+ d.

Definition toString (x : number) : string :=
  match x with
  | S754_nan => "NaN"
  | S754_zero _ => "0"
  | S754_infinity s => if s then "-Infinity" else "Infinity"
  | S754_finite s m e =>
      if s then "-" +:+ toString_positive m e else toString_positive m e
  end.

(** *** [Number.prototype.toFixed]

    [nearest_scaled f m e] is the integer [n] for which [n / 10 ^ f] is
    closest to [m * 2 ^ e], the larger one when two are equally close. *)
Definition nearest_scaled (f : nat) (m : positive) (e : Z) : Z :=
  let num := numerator m e * 10 ^ Z.of_nat f in
  let den := denominator e in
  (2 * num + den) / (2 * den).

(** Inserts the decimal point [f] places from the right, padding with
    zeros so that one digit is left before it. *)
Definition fixed_digits (f : nat) (n : Z) : string :=
  let m := decimal_digits n in
  if Nat.eqb f 0 then m
  else
    let k := String.length m in
    let m' := if Nat.leb k f then zeros (f + 1 - k) +:+ m else m in
    let k' := if Nat.leb k f then (f + 1)%nat else k in
    String.substring 0 (k' - f) m' +:+ "." +:+ String.substring (k' - f) f m'.

(** [x.toFixed(f)] for [0 <= f <= 100]. *)
Definition toFixed (f : nat) (x : number) : string :=
  match x with
  | S754_nan | S754_infinity _ => toString x
  | S754_zero _ => fixed_digits f 0
  | S754_finite s m e =>
      let sign := if s then "-" else "" in
      if 10 ^ 21 * denominator e <=? numerator m e
      then sign +:+ toString_positive m e
      else sign +:+ fixed_digits f (nearest_scaled f m e)
  end.

End JS.

(** ** The calculator component *)

Module Calculator.
Import JS.

(** [interface CalculationResult] *)
Record CalculationResult : Type := {
  totalCarCost : number;
  totalCommuteCost : number;
  monthlySavings : number;
  yearlySavings : number;
  fuelCosts : number;
  maintenanceCost : number;
  insuranceCost : number;
  depreciationCost : number;
  yearlyEmissions : number
}.

(** The [formData] object: ten raw strings, in the order of the object
    literal that initialises it. *)
Record FormData : Type := {
  carPrice : string;
  fuelEfficiency : string;
  fuelPrice : string;
  distanceToWork : string;
  workingDaysPerMonth : string;
  maintenanceCosts : string;
  insuranceCosts : string;
  resaleValue : string;
  resaleYears : string;
  publicTransportCosts : string
}.

Definition initialFormData : FormData :=
  {| carPrice := ""; fuelEfficiency := ""; fuelPrice := "";
     distanceToWork := ""; workingDaysPerMonth := "";
     maintenanceCosts := ""; insuranceCosts := ""; resaleValue := "";
     resaleYears := ""; publicTransportCosts := "" |}.

(** [Object.entries(formData)]: own properties in insertion order. *)
Definition Object_entries (fd : FormData) : list (string * string) :=
  [ ("carPrice", carPrice fd);
    ("fuelEfficiency", fuelEfficiency fd);
    ("fuelPrice", fuelPrice fd);
    ("distanceToWork", distanceToWork fd);
    ("workingDaysPerMonth", workingDaysPerMonth fd);
    ("maintenanceCosts", maintenanceCosts fd);
    ("insuranceCosts", insuranceCosts fd);
    ("resaleValue", resaleValue fd);
    ("resaleYears", resaleYears fd);
    ("publicTransportCosts", publicTransportCosts fd) ].

(** [formData[field]]: [None] stands for [undefined]. *)
Fixpoint assoc (name : string) (l : list (string * string)) : option string :=
  match l with
  | (k, v) :: l' => if String.eqb name k then Some v else assoc name l'
  | [] => None
  end.

Definition get_field (fd : FormData) (name : string) : option string :=
  assoc name (Object_entries fd).

(** [{...prev, [name]: value}] for the name of one of the ten inputs, the
    only elements that fire the change event. *)
Definition set_field (fd : FormData) (name value : string) : FormData :=
  {| carPrice := if String.eqb name "carPrice" then value else carPrice fd;
     fuelEfficiency :=
       if String.eqb name "fuelEfficiency" then value else fuelEfficiency fd;
     fuelPrice := if String.eqb name "fuelPrice" then value else fuelPrice fd;
     distanceToWork :=
       if String.eqb name "distanceToWork" then value else distanceToWork fd;
     workingDaysPerMonth :=
       if String.eqb name "workingDaysPerMonth" then value
       else workingDaysPerMonth fd;
     maintenanceCosts :=
       if String.eqb name "maintenanceCosts" then value
       else maintenanceCosts fd;
     insuranceCosts :=
       if String.eqb name "insuranceCosts" then value else insuranceCosts fd;
     resaleValue :=
       if String.eqb name "resaleValue" then value else resaleValue fd;
     resaleYears :=
       if String.eqb name "resaleYears" then value else resaleYears fd;
     publicTransportCosts :=
       if String.eqb name "publicTransportCosts" then value
       else publicTransportCosts fd |}.

Inductive ViewMode : Type := monthly | yearly.
Inductive ChartType : Type := line | area.

(** The component's state: the five [useState] cells.  [FormErrors] is an
    object used as a map from field names to messages. *)
Record State : Type := {
  formData : FormData;
  errors : gmap string string;
  result : option CalculationResult;
  viewMode : ViewMode;
  chartType : ChartType
}.

Definition initialState : State :=
  {| formData := initialFormData; errors := ∅; result := None;
     viewMode := monthly; chartType := line |}.

(** *** Validation *)

Definition zero : number := of_Z 0.

Definition validateField (name value : string) : string :=
  if String.eqb value "" then ""
  else
    let numValue := parseFloat value in
    if String.eqb name "carPrice" then
      if le numValue zero then "Car price must be greater than 0" else ""
    else if String.eqb name "fuelEfficiency" then
      if le numValue zero then "Fuel efficiency must be greater than 0"
      else ""
    else if String.eqb name "fuelPrice" then
      if le numValue zero then "Fuel price must be greater than 0" else ""
    else if String.eqb name "workingDaysPerMonth" then
      if (le numValue zero || gt numValue (of_Z 31))%bool
      then "Working days must be between 1 and 31" else ""
    else if String.eqb name "resaleYears" then
      if le numValue zero then "Years until resale must be greater than 0"
      else ""
    else
      if lt numValue zero then "Value cannot be negative" else "".

(** The test [/^\d*\.?\d*$/.test(value)]. *)
Definition input_filter (value : string) : bool :=
  let '(_, r1) := span_digits value in
  let r2 := match r1 with String "." r => r | _ => r1 end in
  let '(_, r3) := span_digits r2 in
  is_empty r3.

Definition handleInputChange (name value : string) (st : State) : State :=
  if (String.eqb value "" || input_filter value)%bool then
    {| formData := set_field (formData st) name value;
       errors :=
         if negb (String.eqb value "")
         then <[name := validateField name value]> (errors st)
         else <[name := ""]> (errors st);
       result := result st;
       viewMode := viewMode st;
       chartType := chartType st |}
  else st.

Definition requiredFields : list string :=
  ["carPrice"; "fuelEfficiency"; "fuelPrice"; "workingDaysPerMonth"].

(** One round of the first [forEach] of [validateForm]. *)
Definition validate_entry (acc : gmap string string * bool)
    (entry : string * string) : gmap string string * bool :=
  let '(newErrors, isValid) := acc in
  let '(name, value) := entry in
  let error := validateField name value in
  if truthy_string error then (<[name := error]> newErrors, false)
  else (newErrors, isValid).

(** One round of the second [forEach]; [undefined] is falsy. *)
Definition require_field (fd : FormData) (acc : gmap string string * bool)
    (field : string) : gmap string string * bool :=
  let '(newErrors, isValid) := acc in
  let present :=
    match get_field fd field with
    | Some v => truthy_string v
    | None => false
    end in
  if negb present then (<[field := "This field is required"]> newErrors, false)
  else (newErrors, isValid).

(** [validateForm]: the error map handed to [setErrors] and the returned
    flag. *)
Definition validateForm (fd : FormData) : gmap string string * bool :=
  let checked := fold_left validate_entry (Object_entries fd) (∅, true) in
  fold_left (require_field fd) requiredFields checked.

(** *** The cost engine *)

(** The object [values] of [calculateCosts]. *)
Record Values : Type := {
  v_carPrice : number;
  v_fuelEfficiency : number;
  v_fuelPrice : number;
  v_distanceToWork : number;
  v_workingDaysPerMonth : number;
  v_maintenanceCosts : number;
  v_insuranceCosts : number;
  v_resaleValue : number;
  v_resaleYears : number;
  v_publicTransportCosts : number
}.

Definition parse_values (fd : FormData) : Values :=
  {| v_carPrice := or_else (parseFloat (carPrice fd)) (of_Z 0);
     v_fuelEfficiency := or_else (parseFloat (fuelEfficiency fd)) (of_Z 0);
     v_fuelPrice := or_else (parseFloat (fuelPrice fd)) (of_Z 0);
     v_distanceToWork := or_else (parseFloat (distanceToWork fd)) (of_Z 0);
     v_workingDaysPerMonth :=
       or_else (parseFloat (workingDaysPerMonth fd)) (of_Z 0);
     v_maintenanceCosts :=
       or_else (parseFloat (maintenanceCosts fd)) (of_Z 0);
     v_insuranceCosts := or_else (parseFloat (insuranceCosts fd)) (of_Z 0);
     v_resaleValue := or_else (parseFloat (resaleValue fd)) (of_Z 0);
     v_resaleYears := or_else (parseFloat (resaleYears fd)) (of_Z 1);
     v_publicTransportCosts :=
       or_else (parseFloat (publicTransportCosts fd)) (of_Z 0) |}.

Definition CO2_PER_KM : number := of_decimal 404 (-3).

Definition calculateEmissions (monthlyDistance : number) : number :=
  div (mul (mul monthlyDistance (of_Z 12)) CO2_PER_KM) (of_Z 1000).

(** The constants of the [try] block, in the order of the source. *)
Definition monthlyDistance (values : Values) : number :=
  mul (mul (v_distanceToWork values) (of_Z 2)) (v_workingDaysPerMonth values).

Definition monthlyFuelCosts (values : Values) : number :=
  mul (div (monthlyDistance values) (v_fuelEfficiency values))
    (v_fuelPrice values).

Definition totalDepreciation (values : Values) : number :=
  sub (v_carPrice values) (v_resaleValue values).

Definition monthlyDepreciation (values : Values) : number :=
  div (totalDepreciation values) (mul (v_resaleYears values) (of_Z 12)).

Definition monthlyCarCosts (values : Values) : number :=
  add (add (add (monthlyFuelCosts values) (v_maintenanceCosts values))
         (div (v_insuranceCosts values) (of_Z 12)))
    (monthlyDepreciation values).

Definition yearlyCarCosts (values : Values) : number :=
  mul (monthlyCarCosts values) (of_Z 12).

Definition yearlyCommuteCosts (values : Values) : number :=
  mul (v_publicTransportCosts values) (of_Z 12).

(** The record passed to [setResult]. *)
Definition cost_engine (values : Values) : CalculationResult :=
  {| totalCarCost := monthlyCarCosts values;
     totalCommuteCost := v_publicTransportCosts values;
     monthlySavings :=
       sub (v_publicTransportCosts values) (monthlyCarCosts values);
     yearlySavings := sub (yearlyCommuteCosts values) (yearlyCarCosts values);
     fuelCosts := monthlyFuelCosts values;
     maintenanceCost := v_maintenanceCosts values;
     insuranceCost := div (v_insuranceCosts values) (of_Z 12);
     depreciationCost := monthlyDepreciation values;
     yearlyEmissions := calculateEmissions (monthlyDistance values) |}.

(** [calculateCosts], as a transition of the component's state.  Number
    arithmetic never throws, so the [catch] branch of the source is
    unreachable and the [try] block always reaches [setResult]. *)
Definition calculateCosts (st : State) : State :=
  let '(newErrors, isValid) := validateForm (formData st) in
  {| formData := formData st;
     errors := newErrors;
     result :=
       if isValid then Some (cost_engine (parse_values (formData st)))
       else result st;
     viewMode := viewMode st;
     chartType := chartType st |}.

(** *** The number formatter *)

Definition formatIndianNumber (num : number) : string :=
  if ge num (of_Z 10000000) then
    toFixed 2 (div num (of_Z 10000000)) +:+ " Cr"
  else if ge num (of_Z 100000) then
    toFixed 2 (div num (of_Z 100000)) +:+ " L"
  else if ge num (of_Z 1000) then
    toFixed 2 (div num (of_Z 1000)) +:+ " K"
  else toFixed 2 num.

End Calculator.

(** ** Vocabulary of the statements *)

Module Rendering.
Import JS.

(** The sign that [toFixed] prints: only numbers below zero carry it. *)
Definition shown_negative (x : number) : bool :=
  match x with
  | S754_finite s _ _ => s
  | _ => false
  end.

(** [x] is finite and its magnitude is below [10 ^ 21], the range in
    which [toFixed] uses fixed notation. *)
Definition fixed_range (x : number) : bool :=
  match x with
  | S754_zero _ => true
  | S754_finite _ m e => numerator m e <? 10 ^ 21 * denominator e
  | _ => false
  end.

(** [n] hundredths is the multiple of [1 / 100] nearest to the magnitude
    of [x], the larger one when [x] lies half-way between two. *)
Definition nearest_hundredths (x : number) (n : Z) : Prop :=
  match x with
  | S754_zero _ => n = 0
  | S754_finite _ m e =>
      - denominator e < 2 * (n * denominator e - 100 * numerator m e)
        <= denominator e
  | _ => False
  end.

(** The text of [n] hundredths with exactly two decimal places. *)
Definition two_decimals (neg : bool) (n : Z) : string :=
  (if neg then "-" else "") +:+ decimal_digits (n / 100) +:+ "." +:+
  String (digit_char ((n / 10) mod 10)) (String (digit_char (n mod 10)) "").

(** Once the last [skip] characters are set aside, the text ends with a
    decimal point followed by two characters. *)
Definition decimal_point_at (skip : nat) (s : string) : bool :=
  match skipn skip (rev (list_ascii_of_string s)) with
  | _ :: _ :: c :: _ => Ascii.eqb c "."
  | _ => false
  end.

End Rendering.

(** ** Sessions used as examples *)

Module Scenarios.
Import JS Calculator.

(** The state reached from the initial one by a sequence of change events,
    each the name of an input and its new text. *)
Definition typed (events : list (string * string)) : State :=
  fold_left (fun st ev => handleInputChange (fst ev) (snd ev) st)
    events initialState.

(** The worked scenario of the specification. *)
Definition scenario : State :=
  typed [ ("carPrice", "600000"); ("fuelEfficiency", "15");
          ("fuelPrice", "100"); ("distanceToWork", "10");
          ("workingDaysPerMonth", "22"); ("maintenanceCosts", "1000");
          ("insuranceCosts", "12000"); ("resaleValue", "200000");
          ("resaleYears", "5"); ("publicTransportCosts", "2000") ].

(** A lone decimal point typed as the fuel efficiency. *)
Definition lone_point : State :=
  typed [ ("carPrice", "1"); ("fuelEfficiency", "."); ("fuelPrice", "1");
          ("distanceToWork", "1"); ("workingDaysPerMonth", "1") ].

(** The same with no distance entered. *)
Definition lone_point_no_distance : State :=
  typed [ ("carPrice", "1"); ("fuelEfficiency", "."); ("fuelPrice", "1");
          ("workingDaysPerMonth", "1") ].

(** A car of price 5 kept one year against a monthly pass of price 1. *)
Definition small_amounts : State :=
  typed [ ("carPrice", "5"); ("fuelEfficiency", "1"); ("fuelPrice", "1");
          ("workingDaysPerMonth", "1"); ("publicTransportCosts", "1") ].

(** A resale value above the purchase price. *)
Definition appreciating : State :=
  typed [ ("carPrice", "100000"); ("fuelEfficiency", "15");
          ("fuelPrice", "100"); ("workingDaysPerMonth", "22");
          ("resaleValue", "220000") ].

(** Only the public transport cost filled in. *)
Definition car_price_missing : State :=
  typed [ ("publicTransportCosts", "2000") ].

End Scenarios.

(** ** What the whole-form validation checks *)

Module Checks.
Import JS Calculator.

(** The single-field validator has no complaint about the entry. *)
Definition entry_valid (entry : string * string) : bool :=
  negb (truthy_string (validateField (fst entry) (snd entry))).

(** A required field holds a nonempty text. *)
Definition field_present (fd : FormData) (field : string) : bool :=
  match get_field fd field with
  | Some v => truthy_string v
  | None => false
  end.

End Checks.

(** ** The session as a sequence of events *)

Module Session.
Import JS Calculator.

(** What the user can do: change the text of an input, press the
    calculate button, or press one of the view and chart toggles. *)
Inductive Event : Type :=
  | Change (name value : string)
  | Calculate
  | SetViewMode (mode : ViewMode)
  | SetChartType (chart : ChartType).

Definition setViewMode (mode : ViewMode) (st : State) : State :=
  {| formData := formData st; errors := errors st; result := result st;
     viewMode := mode; chartType := chartType st |}.

Definition setChartType (chart : ChartType) (st : State) : State :=
  {| formData := formData st; errors := errors st; result := result st;
     viewMode := viewMode st; chartType := chart |}.

Definition step (st : State) (ev : Event) : State :=
  match ev with
  | Change name value => handleInputChange name value st
  | Calculate => calculateCosts st
  | SetViewMode mode => setViewMode mode st
  | SetChartType chart => setChartType chart st
  end.

Definition run (events : list Event) (st : State) : State :=
  fold_left step events st.

End Session.

(** ** The key filter of the inputs *)

Module Keyboard.
Import JS.

(** The keys named in the [onKeyDown] handler. *)
Definition named_keys : list string :=
  [ "Backspace"; "Delete"; "Tab"; "Escape"; "Enter"; ".";
    "ArrowLeft"; "ArrowRight"; "ArrowUp"; "ArrowDown" ].

(** The test [/^\d$/.test(e.key)]. *)
Definition single_digit (key : string) : bool :=
  match key with
  | String c EmptyString => is_digit c
  | _ => false
  end.

(** [value.includes('.')] *)
Fixpoint includes_point (value : string) : bool :=
  match value with
  | String c r => (Ascii.eqb c "." || includes_point r)%bool
  | EmptyString => false
  end.

(** [onKeyDown]: whether the handler calls [preventDefault] for the key,
    given the current text of the input. *)
Definition onKeyDown_prevented (key value : string) : bool :=
  if (existsb (String.eqb key) named_keys || single_digit key)%bool
  then (String.eqb key "." && includes_point value)%bool
  else true.

End Keyboard.

(** ** Amounts in words *)

Module Words.
Import JS Calculator.

(** [Math.round]: the nearest integer, the larger one half-way between
    two; a result of zero keeps the sign of the argument. *)
Definition Math_round (x : number) : number :=
  match x with
  | S754_finite s m e =>
      if 0 <=? e then x
      else
        let n := (cond_Zopp s (2 * Zpos m) + 2 ^ (- e)) / 2 ^ (- e + 1) in
        if n =? 0 then S754_zero s else of_Z n
  | _ => x
  end.

(** [isNaN] on a number. *)
Definition isNaN (x : number) : bool :=
  match x with
  | S754_nan => true
  | _ => false
  end.

Section WithLibrary.

(** [numberToWords.toWords] of the package number-to-words, which is not
    part of the repository; [None] stands for a thrown exception. *)
Variable toWords : number -> option string.

(** [formatIndianWords]; [None] when [toWords] throws. *)
Definition formatIndianWords (num : number) : option string :=
  if ge num (of_Z 10000000) then
    Some (toFixed 2 (div num (of_Z 10000000)) +:+ " crores")
  else if ge num (of_Z 100000) then
    Some (toFixed 2 (div num (of_Z 100000)) +:+ " lakhs")
  else if ge num (of_Z 1000) then
    Some (toFixed 2 (div num (of_Z 1000)) +:+ " thousand")
  else toWords (Math_round num).

(** [convertToWords]: the [catch] turns an exception into the empty
    text. *)
Definition convertToWords (value : string) : string :=
  if (negb (truthy_string value) || isNaN (parseFloat value))%bool then ""
  else
    let number := parseFloat value in
    if strict_eq number (of_Z 0) then "zero"
    else
      match formatIndianWords number with
      | Some words => words
      | None => ""
      end.

End WithLibrary.

End Words.

(** ** Shapes of texts, numbers and error maps *)

Module Shapes.
Import JS Calculator Checks.

Definition digit_or_point (c : ascii) : bool :=
  (is_digit c || Ascii.eqb c ".")%bool.

Fixpoint all_digit_or_point (s : string) : bool :=
  match s with
  | String c r => (digit_or_point c && all_digit_or_point r)%bool
  | EmptyString => true
  end.

Fixpoint count_points (s : string) : nat :=
  match s with
  | String c r => ((if Ascii.eqb c "." then 1 else 0) + count_points r)%nat
  | EmptyString => O
  end.

(** Digits with at most one decimal point among them. *)
Definition plain_decimal (s : string) : bool :=
  (all_digit_or_point s && Nat.leb (count_points s) 1)%bool.

(** Every field of the form passes the input filter. *)
Definition all_accepted (fd : FormData) : bool :=
  forallb (fun entry => input_filter (snd entry)) (Object_entries fd).

Definition is_zero (x : number) : bool :=
  match x with
  | S754_zero _ => true
  | _ => false
  end.

(** Zero, a positive number or plus infinity. *)
Definition non_negative (x : number) : bool := ge x zero.

(** The complaint recorded for [key] by the first pass over a list of
    entries: the one of the last entry of that name that has one. *)
Fixpoint recorded_complaint (key : string) (l : list (string * string))
  : option string :=
  match l with
  | [] => None
  | (name, value) :: l' =>
      match recorded_complaint key l' with
      | Some error => Some error
      | None =>
          if (String.eqb name key
              && truthy_string (validateField name value))%bool
          then Some (validateField name value) else None
      end
  end.

(** The message a field ends up with after the whole-form validation:
    the required-field message when a required field is empty, otherwise
    the complaint of the single-field validator, if any. *)
Definition expected_error (fd : FormData) (name : string) : option string :=
  match get_field fd name with
  | None => None
  | Some value =>
      if truthy_string value then
        let error := validateField name value in
        if truthy_string error then Some error else None
      else if existsb (String.eqb name) requiredFields
      then Some "This field is required"
      else None
  end.

(** [n] is the integer nearest to [x], the larger one when [x] lies
    half-way between two. *)
Definition nearest_integer (x : number) (n : Z) : Prop :=
  match x with
  | S754_zero _ => n = 0
  | S754_finite s m e =>
      - denominator e
      < 2 * (n * denominator e - cond_Zopp s (numerator m e))
      <= denominator e
  | _ => False
  end.

(** What every state of a session satisfies: the fields pass the input
    filter, and a stored result is the engine's record for some form
    that passed both the filter and the validation. *)
Definition session_invariant (st : State) : Prop :=
  all_accepted (formData st) = true /\
  forall r,
    result st = Some r ->
    exists fd,
      all_accepted fd = true /\ snd (validateForm fd) = true /\
      r = cost_engine (parse_values fd).

End Shapes.

(** ** Whole amounts *)

Module Exact.
Import JS.

(** [x] is the double of the integer [c], written with a full 53-bit
    mantissa; [c] has at most 53 bits. *)
Definition whole (x : number) (c : Z) : Prop :=
  match c with
  | Z0 => x = S754_zero false
  | _ =>
      exists p,
        Zpos p = Z.abs c * 2 ^ (53 - Zdigits2 c) /\
        x = S754_finite (c <? 0) p (Zdigits2 c - 53)
  end.

End Exact.

(** ** A session with very large amounts *)

Module Extremes.
Import JS Calculator Scenarios.

(** Ten to the power 308, in digits. *)
Definition ten_to_308 : string :=
  "100000000000000000000000000000000000000000000000000000000000000000000000000000000000000000000000000000000000000000000000000000000000000000000000000000000000000000000000000000000000000000000000000000000000000000000000000000000000000000000000000000000000000000000000000000000000000000000000000000000000000000000".

(** A maintenance cost and a public transport cost of [10 ^ 308]. *)
Definition huge_costs : State :=
  typed [ ("carPrice", "1"); ("fuelEfficiency", "1"); ("fuelPrice", "1");
          ("workingDaysPerMonth", "1"); ("maintenanceCosts", ten_to_308);
          ("publicTransportCosts", ten_to_308) ].

End Extremes.

(** * Properties *)

Import JS Calculator Rendering Scenarios Checks.

(** Conjunctions of closed equations are settled by evaluation; a goal
    with a variable in it is never handed to [vm_compute]. *)
Ltac split_conj := repeat match goal with |- _ /\ _ => split end.
Ltac evaluate := match goal with |- _ = _ => vm_compute; reflexivity end.
Ltac by_evaluation := split_conj; evaluate.

(** ** Strings *)

Section StringFacts.

Lemma append_nil_l (s : string) : "" +:+ s = s.
Proof. reflexivity. Qed.

Lemma append_cons (c : ascii) (a b : string) :
  String c a +:+ b = String c (a +:+ b).
Proof. reflexivity. Qed.

Lemma append_assoc (a b c : string) : (a +:+ b) +:+ c = a +:+ (b +:+ c).
Proof.
  induction a as [|x a IH]; [reflexivity |].
  rewrite !append_cons. now rewrite IH.
Qed.

Lemma length_append (a b : string) :
  String.length (a +:+ b) = (String.length a + String.length b)%nat.
Proof.
  induction a as [|x a IH]; [reflexivity |].
  rewrite append_cons. cbn [String.length]. now rewrite IH.
Qed.

Lemma substring_all (a : string) :
  String.substring 0 (String.length a) a = a.
Proof. induction a as [|x a IH]; cbn; [reflexivity | now rewrite IH]. Qed.

Lemma substring_append_l (a b : string) :
  String.substring 0 (String.length a) (a +:+ b) = a.
Proof.
  induction a as [|x a IH].
  - rewrite append_nil_l. destruct b; reflexivity.
  - rewrite append_cons. cbn [String.length String.substring].
    now rewrite IH.
Qed.

Lemma substring_append_r (a b : string) :
  String.substring (String.length a) (String.length b) (a +:+ b) = b.
Proof.
  induction a as [|x a IH].
  - apply substring_all.
  - rewrite append_cons. exact IH.
Qed.

End StringFacts.

Section DecimalDigits.

Lemma decimal_digits_from_acc (fuel : nat) :
  forall n acc,
    decimal_digits_from fuel n acc = decimal_digits_from fuel n "" +:+ acc.
Proof.
  induction fuel as [|fuel IH]; intros n acc; simpl.
  - reflexivity.
  - destruct (n <? 10).
    + reflexivity.
    + rewrite IH. rewrite (IH _ (String _ "")). rewrite append_assoc.
      reflexivity.
Qed.

Lemma decimal_digits_from_fuel (fuel : nat) :
  forall fuel' n acc,
    0 <= n < 10 ^ Z.of_nat (S fuel) -> 0 <= n < 10 ^ Z.of_nat (S fuel') ->
    decimal_digits_from (S fuel) n acc = decimal_digits_from (S fuel') n acc.
Proof.
  induction fuel as [|fuel IH]; intros fuel' n acc Hn Hn'.
  - simpl. change (10 ^ Z.of_nat 1) with 10 in Hn.
    destruct (Z.ltb_spec n 10); [reflexivity | lia].
  - destruct fuel' as [|fuel'].
    + change (10 ^ Z.of_nat 1) with 10 in Hn'.
      cbn [decimal_digits_from].
      destruct (Z.ltb_spec n 10); [reflexivity | lia].
    + cbn [decimal_digits_from].
      destruct (Z.ltb_spec n 10) as [|Hge]; [reflexivity |].
      assert (Hdiv : forall k : nat,
                 n < 10 ^ Z.of_nat (S (S k)) -> n / 10 < 10 ^ Z.of_nat (S k)).
      { intros k Hk. apply Z.div_lt_upper_bound; [lia |].
        rewrite (Nat2Z.inj_succ (S k)), Z.pow_succ_r in Hk by lia. exact Hk. }
      apply (IH (fuel') (n / 10)).
      * split; [apply Z.div_pos; lia | apply Hdiv; lia].
      * split; [apply Z.div_pos; lia | apply Hdiv; lia].
Qed.

Lemma log2_fuel (n : Z) : 0 <= n -> n < 10 ^ Z.of_nat (S (Z.to_nat (Z.log2 n))).
Proof.
  intros Hn. rewrite Nat2Z.inj_succ, Z2Nat.id by apply Z.log2_nonneg.
  destruct (Z.eq_dec n 0) as [->|Hne]; [reflexivity |].
  pose proof (Z.log2_spec n ltac:(lia)) as [_ Hlt].
  pose proof (Z.log2_nonneg n).
  eapply Z.lt_le_trans; [exact Hlt |].
  apply Z.pow_le_mono_l. lia.
Qed.

Lemma decimal_digits_small (n : Z) :
  0 <= n < 10 -> decimal_digits n = String (digit_char n) "".
Proof.
  intros Hn. unfold decimal_digits. cbn [decimal_digits_from].
  destruct (Z.ltb_spec n 10); [| lia].
  rewrite Z.mod_small by lia. reflexivity.
Qed.

Lemma decimal_digits_step (n : Z) :
  10 <= n ->
  decimal_digits n = decimal_digits (n / 10) +:+ String (digit_char (n mod 10)) "".
Proof.
  intros Hn. unfold decimal_digits at 1. cbn [decimal_digits_from].
  destruct (Z.ltb_spec n 10); [lia |].
  rewrite decimal_digits_from_acc.
  f_equal. unfold decimal_digits.
  assert (H10 : 0 <= n / 10) by (apply Z.div_pos; lia).
  assert (Hlog : (1 <= Z.to_nat (Z.log2 n))%nat).
  { pose proof (Z.log2_le_mono 2 n ltac:(lia)) as Hl.
    change (Z.log2 2) with 1 in Hl. lia. }
  destruct (Z.to_nat (Z.log2 n)) as [|k] eqn:Hk; [lia |].
  apply decimal_digits_from_fuel.
  - split; [exact H10 |].
    apply Z.div_lt_upper_bound; [lia |].
    pose proof (log2_fuel n ltac:(lia)) as Hf. rewrite Hk in Hf.
    rewrite (Nat2Z.inj_succ (S k)), Z.pow_succ_r in Hf by lia. exact Hf.
  - split; [exact H10 | apply log2_fuel; exact H10].
Qed.

Lemma fixed_digits_two (n : Z) :
  0 <= n -> fixed_digits 2 n = two_decimals false n.
Proof.
  intros Hn. unfold fixed_digits, two_decimals.
  cbn [Nat.eqb].
  destruct (Z.lt_ge_cases n 10) as [H10|H10].
  - rewrite (decimal_digits_small n) by lia.
    rewrite (Z.div_small n 100), (Z.div_small n 10), (Z.mod_small n 10) by lia.
    reflexivity.
  - rewrite (decimal_digits_step n) by lia.
    destruct (Z.lt_ge_cases n 100) as [H100|H100].
    + rewrite (decimal_digits_small (n / 10))
        by (split; [apply Z.div_pos; lia | apply Z.div_lt_upper_bound; lia]).
      rewrite (Z.div_small n 100) by lia.
      rewrite (Z.mod_small (n / 10) 10)
        by (split; [apply Z.div_pos; lia | apply Z.div_lt_upper_bound; lia]).
      reflexivity.
    + assert (H10' : 10 <= n / 10)
        by (apply Z.div_le_lower_bound; lia).
      rewrite (decimal_digits_step (n / 10)) by exact H10'.
      rewrite Z.div_div by lia. change (10 * 10) with 100.
      set (D := decimal_digits (n / 100)).
      rewrite append_assoc, append_cons, append_nil_l.
      set (t := String (digit_char ((n / 10) mod 10))
                  (String (digit_char (n mod 10)) "")).
      rewrite length_append. change (String.length t) with 2%nat.
      assert (HD : (1 <= String.length D)%nat).
      { subst D. destruct (Z.lt_ge_cases (n / 100) 10).
        - rewrite decimal_digits_small; [simpl; lia |].
          split; [apply Z.div_pos; lia | lia].
        - rewrite decimal_digits_step by lia. rewrite length_append.
          simpl. lia. }
      destruct (Nat.leb_spec (String.length D + 2) 2) as [Hle|_]; [lia |].
      replace (String.length D + 2 - 2)%nat with (String.length D) by lia.
      rewrite substring_append_l.
      change 2%nat with (String.length t) at 1.
      rewrite substring_append_r. reflexivity.
Qed.

End DecimalDigits.

Section FixedNotation.

Lemma denominator_pos (e : Z) : 0 < denominator e.
Proof. unfold denominator. apply Z.pow_pos_nonneg; lia. Qed.

Lemma numerator_pos (m : positive) (e : Z) : 0 < numerator m e.
Proof.
  unfold numerator. apply Z.mul_pos_pos; [lia |].
  apply Z.pow_pos_nonneg; lia.
Qed.

Lemma nearest_scaled_spec (m : positive) (e : Z) :
  let n := nearest_scaled 2 m e in
  0 <= n /\
  - denominator e < 2 * (n * denominator e - 100 * numerator m e)
    <= denominator e.
Proof.
  unfold nearest_scaled. change (10 ^ Z.of_nat 2) with 100.
  pose proof (denominator_pos e) as Hd.
  pose proof (numerator_pos m e) as Hn.
  set (num := numerator m e) in *. set (den := denominator e) in *.
  pose proof (Z.div_mod (2 * (num * 100) + den) (2 * den) ltac:(lia)) as Hdm.
  pose proof (Z.mod_pos_bound (2 * (num * 100) + den) (2 * den) ltac:(lia))
    as Hr.
  set (q := (2 * (num * 100) + den) / (2 * den)) in *.
  set (r := (2 * (num * 100) + den) mod (2 * den)) in *.
  cbn zeta. split; [| lia].
  subst q. apply Z.div_pos; lia.
Qed.

Lemma toFixed_two_decimals (x : number) :
  fixed_range x = true ->
  exists n, 0 <= n /\ nearest_hundredths x n /\
            toFixed 2 x = two_decimals (shown_negative x) n.
Proof.
  destruct x as [s | s | | s m e]; cbn [fixed_range]; try discriminate.
  - intros _. exists 0. split; [lia |]. split; reflexivity.
  - intros Hr. exists (nearest_scaled 2 m e).
    destruct (nearest_scaled_spec m e) as [Hn Hnear].
    split; [exact Hn |]. split; [exact Hnear |].
    cbn [toFixed shown_negative].
    destruct (Z.leb_spec (10 ^ 21 * denominator e) (numerator m e)) as [Hle|_].
    + apply Z.ltb_lt in Hr. lia.
    + rewrite fixed_digits_two by exact Hn. destruct s; reflexivity.
Qed.

Lemma list_ascii_append (a b : string) :
  list_ascii_of_string (a +:+ b) =
  (list_ascii_of_string a ++ list_ascii_of_string b)%list.
Proof.
  induction a as [|c a IH]; [reflexivity |].
  rewrite append_cons. cbn [list_ascii_of_string]. now rewrite IH.
Qed.

Lemma decimal_point_at_two_decimals (neg : bool) (n : Z) (suffix : string) :
  decimal_point_at (String.length suffix) (two_decimals neg n +:+ suffix)
  = true.
Proof.
  unfold decimal_point_at, two_decimals.
  rewrite !list_ascii_append. cbn [list_ascii_of_string].
  rewrite !rev_app_distr.
  assert (Hlen : String.length suffix
                 = List.length (rev (list_ascii_of_string suffix))).
  { rewrite length_rev. clear. induction suffix as [|c s IH];
      [reflexivity | cbn; now rewrite IH]. }
  rewrite Hlen, skipn_app, skipn_all, Nat.sub_diag.
  reflexivity.
Qed.

End FixedNotation.

Section Comparisons.

Lemma SFeqb_refl (x : number) : x <> NaN -> strict_eq x x = true.
Proof.
  unfold strict_eq, SFeqb.
  destruct x as [s | s | | s m e]; intros Hx; try reflexivity.
  - destruct s; reflexivity.
  - contradiction.
  - cbn [SFcompare]. rewrite Z.compare_refl.
    change (Pos.compare_cont Eq m m) with (Pos.compare m m).
    rewrite Pos.compare_refl. destruct s; reflexivity.
Qed.

Lemma SFcompare_swap (a b : number) :
  SFcompare b a = option_map CompOpp (SFcompare a b).
Proof.
  destruct a as [sa | sa | | sa ma ea], b as [sb | sb | | sb mb eb];
    cbn [SFcompare option_map]; try reflexivity;
    try (destruct sa; reflexivity); try (destruct sb; reflexivity);
    try (destruct sa, sb; reflexivity).
  destruct sa, sb; try reflexivity.
  - rewrite (Z.compare_antisym ea eb).
    destruct (ea ?= eb); cbn [CompOpp]; try reflexivity.
    change (Pos.compare_cont Eq) with Pos.compare.
    now rewrite (Pos.compare_antisym ma mb).
  - rewrite (Z.compare_antisym ea eb).
    destruct (ea ?= eb); cbn [CompOpp]; try reflexivity.
    change (Pos.compare_cont Eq) with Pos.compare.
    now rewrite (Pos.compare_antisym ma mb).
Qed.

Lemma lt_not_ge (a b : number) : lt a b = true -> ge a b = false.
Proof.
  unfold lt, ge, SFltb, SFleb. rewrite (SFcompare_swap a b).
  destruct (SFcompare a b) as [[]|]; cbn; congruence.
Qed.

Lemma not_le_zero_positive (x : number) :
  le x zero = false -> x <> NaN -> lt zero x = true.
Proof.
  destruct x as [s | s | | s m e]; intros Hle Hx.
  - discriminate.
  - destruct s; [discriminate | reflexivity].
  - contradiction.
  - destruct s; [discriminate | reflexivity].
Qed.

Lemma compare_cont_Z (p q : positive) :
  Pos.compare_cont Eq p q = (Zpos p ?= Zpos q).
Proof. reflexivity. Qed.

Lemma digits2_pos_bound (m : positive) : Zpos m < 2 ^ Zpos (digits2_pos m).
Proof.
  induction m as [m IH | m IH |]; cbn [digits2_pos].
  - rewrite Pos2Z.inj_succ, Z.pow_succ_r by lia. lia.
  - rewrite Pos2Z.inj_succ, Z.pow_succ_r by lia. lia.
  - reflexivity.
Qed.

Lemma valid_digits (s : bool) (m : positive) (e : Z) :
  valid_binary prec emax (S754_finite s m e) = true ->
  Zpos (digits2_pos m) <= 53.
Proof.
  cbn [valid_binary]. unfold bounded, canonical_mantissa, fexp.
  intros Hb. apply andb_prop in Hb as [Hc _]. apply Z.eqb_eq in Hc.
  unfold prec in Hc. lia.
Qed.

Lemma valid_mantissa_bound (s : bool) (m : positive) (e : Z) :
  valid_binary prec emax (S754_finite s m e) = true -> Zpos m < 2 ^ 53.
Proof.
  intros Hv. pose proof (valid_digits s m e Hv) as Hd.
  pose proof (digits2_pos_bound m) as Hm.
  eapply Z.lt_le_trans; [exact Hm |].
  apply Z.pow_le_mono_r; lia.
Qed.

Lemma binary_round_aux_sign_of (sx : bool) (mx ex : Z) (lx : location) :
  match binary_round_aux prec emax sx mx ex lx with
  | S754_zero s | S754_infinity s | S754_finite s _ _ => s = sx
  | S754_nan => True
  end.
Proof.
  unfold binary_round_aux.
  destruct (shr_fexp prec emax mx ex lx) as [mrs' e'].
  destruct (shr_fexp prec emax _ e' loc_Exact) as [mrs'' e''].
  destruct (shr_m mrs''); try exact I; try reflexivity.
  destruct (e'' <=? emax - prec); reflexivity.
Qed.

Lemma binary_round_aux_sign (sx : bool) (mx ex : Z) (lx : location) :
  shown_negative (binary_round_aux prec emax sx mx ex lx) = true -> sx = true.
Proof.
  pose proof (binary_round_aux_sign_of sx mx ex lx) as Hs.
  destruct (binary_round_aux prec emax sx mx ex lx);
    cbn [shown_negative]; try discriminate.
  intros ->. symmetry. exact Hs.
Qed.

Lemma ge_positive_div_sign (num c : number) :
  lt zero c = true -> ge num c = true ->
  shown_negative (div num c) = false.
Proof.
  intros Hc Hge.
  destruct (shown_negative (div num c)) eqn:Hs; [| reflexivity].
  exfalso. revert Hc Hge Hs. unfold lt, ge, div, zero.
  destruct c as [sc | sc | | sc mc ec]; try discriminate;
    destruct num as [sn | sn | | sn mn en]; try discriminate;
    destruct sc; try discriminate;
    destruct sn; try discriminate.
  intros _ _. cbn [SFdiv].
  destruct (SFdiv_core_binary prec emax (Z.pos mn) en (Z.pos mc) ec)
    as [[mz ez] lz].
  intros Hs. apply binary_round_aux_sign in Hs. discriminate.
Qed.

Lemma of_Z_thousand : of_Z 1000 = S754_finite false 8796093022208000 (-43).
Proof. vm_compute. reflexivity. Qed.

Lemma of_Z_minus_1e21 :
  of_Z (- 10 ^ 21) = S754_finite true 7629394531250000 17.
Proof. vm_compute. reflexivity. Qed.

End Comparisons.

Section Rounding.

Lemma shr_1_m (mrs : shr_record) :
  0 <= shr_m mrs -> shr_m (shr_1 mrs) = shr_m mrs / 2.
Proof.
  destruct mrs as [m r s]. cbn [shr_m]. intros Hm.
  rewrite <- Z.div2_div.
  destruct m as [|[p|p|]|p]; try reflexivity. lia.
Qed.

Lemma iter_pos_shr_1_m (p : positive) :
  forall mrs,
    0 <= shr_m mrs ->
    shr_m (SpecFloat.iter_pos shr_1 p mrs) = shr_m mrs / 2 ^ Zpos p.
Proof.
  assert (Hhalf : forall mrs, 0 <= shr_m mrs -> 0 <= shr_m (shr_1 mrs)).
  { intros mrs Hm. rewrite shr_1_m by exact Hm. apply Z.div_pos; lia. }
  induction p as [p IH | p IH |]; intros mrs Hm; cbn [SpecFloat.iter_pos].
  - assert (H1 : 0 <= shr_m (shr_1 mrs)) by (apply Hhalf; exact Hm).
    assert (H2 : 0 <= shr_m (SpecFloat.iter_pos shr_1 p (shr_1 mrs))).
    { rewrite IH by exact H1. apply Z.div_pos; [exact H1 |].
      apply Z.pow_pos_nonneg; lia. }
    rewrite IH by exact H2. rewrite IH by exact H1.
    rewrite shr_1_m by exact Hm.
    pose proof (Z.pow_pos_nonneg 2 (Z.pos p) ltac:(lia) ltac:(lia)) as Hpp.
    rewrite !Z.div_div by lia.
    f_equal. rewrite Pos2Z.inj_xI.
    rewrite Z.pow_add_r, Z.pow_mul_r by lia.
    change (2 ^ 2) with 4. change (2 ^ 1) with 2.
    rewrite <- Z.pow_add_r by lia.
    replace (Z.pos p + Z.pos p) with (2 * Z.pos p) by lia.
    rewrite Z.pow_mul_r by lia. change (2 ^ 2) with 4. lia.
  - assert (H2 : 0 <= shr_m (SpecFloat.iter_pos shr_1 p mrs)).
    { rewrite IH by exact Hm. apply Z.div_pos; [exact Hm |].
      apply Z.pow_pos_nonneg; lia. }
    rewrite IH by exact H2. rewrite IH by exact Hm.
    pose proof (Z.pow_pos_nonneg 2 (Z.pos p) ltac:(lia) ltac:(lia)) as Hpp.
    rewrite Z.div_div by lia.
    f_equal. rewrite <- Z.pow_add_r by lia. f_equal. lia.
  - rewrite shr_1_m by exact Hm. reflexivity.
Qed.

Lemma shr_fexp_spec (mx ex : Z) (lx : location) :
  0 <= mx ->
  let n := Z.max 0 (fexp prec emax (Zdigits2 mx + ex) - ex) in
  shr_m (fst (shr_fexp prec emax mx ex lx)) = mx / 2 ^ n /\
  snd (shr_fexp prec emax mx ex lx) = ex + n.
Proof.
  intros Hm. cbv zeta. unfold shr_fexp, shr.
  assert (Hrec : shr_m (shr_record_of_loc mx lx) = mx)
    by (destruct lx as [|[]]; reflexivity).
  destruct (fexp prec emax (Zdigits2 mx + ex) - ex) as [|p|p] eqn:Hn;
    cbn [fst snd].
  - change (Z.max 0 0) with 0. rewrite Hrec, Z.div_1_r. split; lia.
  - rewrite iter_pos_shr_1_m by (rewrite Hrec; exact Hm).
    rewrite Hrec. rewrite Z.max_r by lia. split; reflexivity.
  - rewrite Z.max_l by lia. rewrite Hrec, Z.div_1_r. split; lia.
Qed.

Lemma digits2_pos_lower (m : positive) :
  2 ^ (Zpos (digits2_pos m) - 1) <= Zpos m.
Proof.
  induction m as [m IH | m IH |]; cbn [digits2_pos].
  - rewrite Pos2Z.inj_succ.
    replace (Z.succ (Z.pos (digits2_pos m)) - 1)
      with (Z.succ (Z.pos (digits2_pos m) - 1)) by lia.
    rewrite Z.pow_succ_r by lia. lia.
  - rewrite Pos2Z.inj_succ.
    replace (Z.succ (Z.pos (digits2_pos m)) - 1)
      with (Z.succ (Z.pos (digits2_pos m) - 1)) by lia.
    rewrite Z.pow_succ_r by lia. lia.
  - reflexivity.
Qed.

Lemma Zdigits2_upper (a : Z) : 0 <= a -> a < 2 ^ Zdigits2 a.
Proof.
  destruct a as [|p|p]; intros Ha; [reflexivity | | lia].
  apply digits2_pos_bound.
Qed.

Lemma Zdigits2_le (a k : Z) : 0 <= a -> 0 <= k -> a < 2 ^ k -> Zdigits2 a <= k.
Proof.
  destruct a as [|p|p]; intros Ha Hk Hlt; [exact Hk | | lia].
  cbn [Zdigits2]. pose proof (digits2_pos_lower p) as Hlow.
  assert (Hp : 2 ^ (Z.pos (digits2_pos p) - 1) < 2 ^ k) by lia.
  apply Z.pow_lt_mono_r_iff in Hp; lia.
Qed.

Lemma round_nearest_even_bounds (m : Z) (l : location) :
  m <= round_nearest_even m l <= m + 1.
Proof.
  destruct l as [|[]]; cbn [round_nearest_even]; try lia.
  destruct (Z.even m); lia.
Qed.

(** The mantissa of a rounded result has at most 53 bits. *)
Lemma binary_round_aux_mantissa (sx : bool) (mx ex : Z) (lx : location) :
  0 <= mx ->
  forall s m e,
    binary_round_aux prec emax sx mx ex lx = S754_finite s m e ->
    Zpos m < 2 ^ 53.
Proof.
  intros Hmx s m e. unfold binary_round_aux.
  pose proof (shr_fexp_spec mx ex lx Hmx) as [Hm1 He1].
  destruct (shr_fexp prec emax mx ex lx) as [mrs' e'].
  cbn [fst snd] in Hm1, He1.
  set (m1 := round_nearest_even (shr_m mrs') (loc_of_shr_record mrs')).
  assert (Hm1r : 0 <= m1).
  { pose proof (round_nearest_even_bounds (shr_m mrs')
                  (loc_of_shr_record mrs')) as Hb.
    subst m1. rewrite Hm1 in *.
    assert (0 <= mx / 2 ^ Z.max 0 (fexp prec emax (Zdigits2 mx + ex) - ex))
      by (apply Z.div_pos; [lia | apply Z.pow_pos_nonneg; lia]).
    lia. }
  pose proof (shr_fexp_spec m1 e' loc_Exact Hm1r) as [Hm2 He2].
  destruct (shr_fexp prec emax m1 e' loc_Exact) as [mrs'' e''].
  cbn [fst snd] in Hm2, He2.
  destruct (shr_m mrs'') as [|q|q] eqn:Hq; try discriminate.
  destruct (e'' <=? emax - prec); try discriminate.
  intros Heq. injection Heq as _ Hqm _. subst q.
  rewrite Hm2. set (n := Z.max 0 (fexp prec emax (Zdigits2 m1 + e') - e')).
  assert (Hn : 0 <= n) by (subst n; lia).
  apply Z.div_lt_upper_bound; [apply Z.pow_pos_nonneg; lia |].
  rewrite <- Z.pow_add_r by lia.
  pose proof (Zdigits2_upper m1 Hm1r) as Hup.
  eapply Z.lt_le_trans; [exact Hup |].
  assert (Hd : 0 <= Zdigits2 m1)
    by (destruct m1; cbn [Zdigits2]; lia).
  apply Z.pow_le_mono_r; [lia |].
  subst n. unfold fexp, prec. lia.
Qed.

(** A rounded result below [2 ^ k], for [k <= 52], is in the range of
    the fixed notation. *)
Lemma binary_round_aux_small (mx ex : Z) (lx : location) (k : Z) :
  0 <= mx -> ex <= 0 -> 0 <= k <= 52 -> mx < 2 ^ (k - ex) ->
  fixed_range (binary_round_aux prec emax false mx ex lx) = true.
Proof.
  intros Hmx Hex Hk Hlt. unfold binary_round_aux.
  assert (Hstage : forall a ea j,
             0 <= a -> ea <= 0 -> 0 <= j <= 53 -> a < 2 ^ (j - ea) ->
             let n := Z.max 0 (fexp prec emax (Zdigits2 a + ea) - ea) in
             ea + n <= 0 /\ 0 <= a / 2 ^ n < 2 ^ (j - (ea + n))).
  { intros a ea j Ha Hea Hj Haj. cbv zeta.
    pose proof (Zdigits2_le a (j - ea) Ha ltac:(lia) Haj) as Hd.
    set (n := Z.max 0 (fexp prec emax (Zdigits2 a + ea) - ea)).
    assert (Hn : 0 <= n) by (subst n; lia).
    assert (Hen : ea + n <= 0)
      by (subst n; unfold fexp, prec, emin, emax; lia).
    split; [exact Hen |].
    split; [apply Z.div_pos; [lia | apply Z.pow_pos_nonneg; lia] |].
    apply Z.div_lt_upper_bound; [apply Z.pow_pos_nonneg; lia |].
    rewrite <- Z.pow_add_r by lia.
    replace (n + (j - (ea + n))) with (j - ea) by lia. exact Haj. }
  pose proof (shr_fexp_spec mx ex lx Hmx) as [Hm1 He1].
  destruct (shr_fexp prec emax mx ex lx) as [mrs' e'].
  cbn [fst snd] in Hm1, He1.
  destruct (Hstage mx ex k Hmx Hex ltac:(lia) Hlt) as [He' [Hq0 Hq]].
  rewrite <- Hm1, <- He1 in *.
  set (m1 := round_nearest_even (shr_m mrs') (loc_of_shr_record mrs')).
  pose proof (round_nearest_even_bounds (shr_m mrs') (loc_of_shr_record mrs'))
    as Hb.
  fold m1 in Hb.
  assert (Hm1r : 0 <= m1) by lia.
  assert (Hm1lt : m1 < 2 ^ (k + 1 - e')).
  { replace (k + 1 - e') with (Z.succ (k - e')) by lia.
    rewrite Z.pow_succ_r by lia. lia. }
  pose proof (shr_fexp_spec m1 e' loc_Exact Hm1r) as [Hm2 He2].
  destruct (shr_fexp prec emax m1 e' loc_Exact) as [mrs'' e''].
  cbn [fst snd] in Hm2, He2.
  destruct (Hstage m1 e' (k + 1) Hm1r He' ltac:(lia) Hm1lt) as [He'' [Hr0 Hr]].
  rewrite <- Hm2, <- He2 in *.
  destruct (shr_m mrs'') as [|q|q] eqn:Hq2; [reflexivity | | lia].
  destruct (Z.leb_spec e'' (emax - prec)) as [_ | Hbig];
    [| unfold emax, prec in Hbig; lia].
  cbn [fixed_range]. apply Z.ltb_lt. unfold numerator, denominator.
  rewrite (Z.max_r e'' 0), (Z.max_l (- e'') 0) by lia.
  change (2 ^ 0) with 1. rewrite Z.mul_1_r.
  eapply Z.lt_le_trans; [exact Hr |].
  replace (k + 1 - e'') with (k + 1 + - e'') by lia.
  rewrite Z.pow_add_r by lia.
  apply Z.mul_le_mono_nonneg_r; [apply Z.pow_nonneg; lia |].
  apply Z.le_trans with (2 ^ 53).
  - apply Z.pow_le_mono_r; lia.
  - change (2 ^ 53) with 9007199254740992.
    change (10 ^ 21) with 1000000000000000000000. lia.
Qed.

(** The quotient of two positive numbers whose binary magnitudes differ by
    less than [k <= 52] is in the range of the fixed notation. *)
Lemma div_small (m1 m2 : positive) (e1 e2 k : Z) :
  0 <= k <= 52 ->
  Zpos (digits2_pos m1) + e1 - (Zpos (digits2_pos m2) + e2) + 1 <= k ->
  fixed_range (div (S754_finite false m1 e1) (S754_finite false m2 e2)) = true.
Proof.
  intros Hk Hmag. unfold div. cbn [SFdiv xorb].
  unfold SFdiv_core_binary. cbn [Zdigits2].
  set (d1 := Zpos (digits2_pos m1)) in *.
  set (d2 := Zpos (digits2_pos m2)) in *.
  set (ez := Z.min (fexp prec emax (d1 + e1 - (d2 + e2))) (e1 - e2)).
  assert (Hez : ez <= e1 - e2) by (subst ez; lia).
  assert (Hez0 : ez <= 0) by (subst ez; unfold fexp, prec, emin, emax; lia).
  set (s := e1 - e2 - ez). assert (Hs : 0 <= s) by (subst s; lia).
  set (m' := match s with
             | 0 => Z.pos m1
             | Z.pos _ => Z.shiftl (Z.pos m1) s
             | Z.neg _ => 0
             end).
  assert (Hm' : m' = Zpos m1 * 2 ^ s).
  { subst m'. destruct s as [|p|p] eqn:Hsp.
    - change (2 ^ 0) with 1. lia.
    - apply Z.shiftl_mul_pow2. lia.
    - lia. }
  pose proof (Z.div_eucl_eq m' (Zpos m2) ltac:(lia)) as Hdm.
  pose proof (Z.mod_pos_bound m' (Zpos m2) ltac:(lia)) as Hrem.
  unfold Z.modulo in Hrem.
  destruct (Z.div_eucl m' (Z.pos m2)) as [q r].
  pose proof (digits2_pos_bound m1) as Hu1. fold d1 in Hu1.
  pose proof (digits2_pos_lower m2) as Hl2. fold d2 in Hl2.
  assert (Hd1 : 0 < d1) by (subst d1; lia).
  assert (Hd2 : 0 < d2) by (subst d2; lia).
  assert (Hps : 0 < 2 ^ s) by (apply Z.pow_pos_nonneg; lia).
  assert (Hq0 : 0 <= q) by nia.
  apply (binary_round_aux_small q ez _ k); try lia.
  (* q * m2 <= m' < 2 ^ (d1 + s) and 2 ^ (d2 - 1) <= m2 *)
  assert (Hm'lt : m' < 2 ^ (d1 + s)).
  { rewrite Hm', Z.pow_add_r by lia. nia. }
  assert (Hsplit : 2 ^ (d1 + s) = 2 ^ (k - ez) * 2 ^ (d1 + s - (k - ez)) \/
                   d1 + s <= k - ez).
  { destruct (Z.le_gt_cases (d1 + s) (k - ez)) as [Hle | Hgt];
      [right; exact Hle | left].
    rewrite <- Z.pow_add_r by lia. f_equal. lia. }
  assert (Hkez : d1 + s - d2 + 1 <= k - ez) by (subst s; lia).
  assert (Hpow : 2 ^ (d1 + s) <= 2 ^ (k - ez) * 2 ^ (d2 - 1)).
  { rewrite <- Z.pow_add_r by lia. apply Z.pow_le_mono_r; lia. }
  assert (Hpk : 0 < 2 ^ (k - ez)) by (apply Z.pow_pos_nonneg; lia).
  assert (Hp2 : 0 < 2 ^ (d2 - 1)) by (apply Z.pow_pos_nonneg; lia).
  clear Hsplit. nia.
Qed.

Lemma fixed_range_of_bounds (s : bool) (m : positive) (e : Z) :
  Zpos m < 2 ^ 53 ->
  e < 17 \/ (e = 17 /\ Zpos m < 7629394531250000) ->
  fixed_range (S754_finite s m e) = true.
Proof.
  intros Hm He. cbn [fixed_range]. apply Z.ltb_lt.
  unfold numerator, denominator.
  change (2 ^ 53) with 9007199254740992 in Hm.
  change (10 ^ 21) with 1000000000000000000000.
  destruct He as [He | [-> Hlt]].
  - destruct (Z.le_gt_cases e 0) as [He0 | He0].
    + rewrite (Z.max_r e 0) by lia.
      pose proof (Z.pow_pos_nonneg 2 (Z.max (- e) 0) ltac:(lia) ltac:(lia)).
      change (2 ^ 0) with 1. nia.
    + rewrite (Z.max_l e 0), (Z.max_r (- e) 0) by lia.
      change (2 ^ 0) with 1.
      pose proof (Z.pow_le_mono_r 2 e 16 ltac:(lia) ltac:(lia)) as Hp.
      pose proof (Z.pow_pos_nonneg 2 e ltac:(lia) ltac:(lia)).
      change (2 ^ 16) with 65536 in Hp. nia.
  - change (Z.max 17 0) with 17. change (Z.max (Z.opp 17) 0) with 0.
    change (2 ^ 17) with 131072. change (2 ^ 0) with 1. lia.
Qed.

Lemma of_Z_1e21 : of_Z (10 ^ 21) = S754_finite false 7629394531250000 17.
Proof. vm_compute. reflexivity. Qed.

Lemma below_thousand_fixed_range (x : number) :
  valid_binary prec emax x = true ->
  lt x (of_Z 1000) = true -> gt x (of_Z (- 10 ^ 21)) = true ->
  fixed_range x = true.
Proof.
  rewrite of_Z_thousand, of_Z_minus_1e21. intros Hv Hlt Hgt.
  destruct x as [s | s | | s m e]; try reflexivity.
  - destruct s; [vm_compute in Hgt | vm_compute in Hlt]; discriminate.
  - vm_compute in Hlt. discriminate.
  - apply fixed_range_of_bounds; [exact (valid_mantissa_bound s m e Hv) |].
    clear Hv. destruct s.
    + clear Hlt. revert Hgt. unfold gt, SFltb. cbn [SFcompare].
      destruct (Z.compare_spec 17 e) as [He | He | He]; try discriminate.
      * subst e.
        rewrite compare_cont_Z.
        destruct (Z.compare_spec 7629394531250000 (Zpos m));
          try discriminate.
        intros _. right. split; [reflexivity | lia].
      * intros _. left. lia.
    + clear Hgt. revert Hlt. unfold lt, SFltb. cbn [SFcompare].
      destruct (Z.compare_spec e (-43)) as [He | He | He]; try discriminate;
        intros _; left; lia.
Qed.

(** The quotient of a double in a band by the lower end of the band. *)
Lemma band_quotient_fixed_range (num : number) (mc mb : positive)
    (ec eb k : Z) :
  valid_binary prec emax num = true ->
  ge num (S754_finite false mc ec) = true ->
  lt num (S754_finite false mb eb) = true ->
  0 <= k <= 52 ->
  53 + eb - (Zpos (digits2_pos mc) + ec) + 1 <= k ->
  fixed_range (div num (S754_finite false mc ec)) = true.
Proof.
  intros Hv Hge Hlt Hk Hmag.
  unfold ge, lt, SFleb, SFltb in Hge, Hlt.
  destruct num as [s | s | | s m e]; cbn [SFcompare] in Hge, Hlt;
    try discriminate.
  - destruct s; discriminate.
  - destruct s; [discriminate |].
    pose proof (valid_digits false m e Hv) as Hd.
    assert (He : e <= eb).
    { revert Hlt. destruct (Z.compare_spec e eb); try discriminate; lia. }
    apply (div_small m mc e ec k); lia.
Qed.

Lemma quotient_below_1e21_fixed_range (num : number) (mc : positive) (ec : Z) :
  ge num (S754_finite false mc ec) = true ->
  lt (div num (S754_finite false mc ec)) (of_Z (10 ^ 21)) = true ->
  fixed_range (div num (S754_finite false mc ec)) = true.
Proof.
  rewrite of_Z_1e21. intros Hge. unfold ge, SFleb in Hge.
  destruct num as [s | s | | s m e]; cbn [SFcompare] in Hge;
    try discriminate.
  - destruct s; [discriminate |]. intros Hlt. vm_compute in Hlt.
    discriminate.
  - destruct s; [discriminate |]. clear Hge. unfold div. cbn [SFdiv xorb].
    pose proof (binary_round_aux_mantissa false) as Hmant.
    pose proof (binary_round_aux_sign_of false) as Hsign.
    unfold SFdiv_core_binary in *. cbn [Zdigits2] in *.
    set (ez := Z.min _ _) in *.
    set (m' := match e - ec - ez with
               | 0 => Z.pos m
               | Z.pos _ => Z.shiftl (Z.pos m) (e - ec - ez)
               | Z.neg _ => 0
               end) in *.
    assert (Hm' : 0 <= m').
    { subst m'. destruct (e - ec - ez); try lia.
      apply Z.shiftl_nonneg. lia. }
    pose proof (Z.div_eucl_eq m' (Zpos mc) ltac:(lia)) as Hdm.
    pose proof (Z.mod_pos_bound m' (Zpos mc) ltac:(lia)) as Hrem.
    unfold Z.modulo in Hrem.
    destruct (Z.div_eucl m' (Z.pos mc)) as [q r].
    assert (Hq : 0 <= q) by nia.
    specialize (Hmant q ez (new_location (Z.pos mc) r) Hq).
    specialize (Hsign q ez (new_location (Z.pos mc) r)).
    destruct (binary_round_aux prec emax false q ez
                (new_location (Z.pos mc) r)) as [s | s | | s mq eq];
      intros Hlt.
    + reflexivity.
    + subst s. vm_compute in Hlt. discriminate.
    + discriminate.
    + subst s.
      apply fixed_range_of_bounds; [exact (Hmant _ _ _ eq_refl) |].
      revert Hlt. unfold lt, SFltb. cbn [SFcompare].
      destruct (Z.compare_spec eq 17) as [He | He | He]; try discriminate.
      * subst eq.
        rewrite compare_cont_Z.
        destruct (Z.compare_spec (Zpos mq) 7629394531250000);
          try discriminate.
        intros _. right. split; [reflexivity | lia].
      * intros _. left. lia.
Qed.

End Rounding.

Section Validation.

Variable fd : FormData.

Lemma validate_entries_flag (l : list (string * string)) :
  forall acc,
    snd (fold_left validate_entry l acc)
    = (snd acc && forallb entry_valid l)%bool.
Proof.
  induction l as [|[name value] l IH]; intros [errs ok]; cbn [fold_left forallb].
  - now rewrite andb_true_r.
  - rewrite IH. unfold validate_entry, entry_valid. cbn [fst snd].
    destruct (truthy_string (validateField name value)); cbn [snd negb andb].
    + now rewrite andb_false_r.
    + reflexivity.
Qed.

Lemma require_fields_flag (l : list string) :
  forall acc,
    snd (fold_left (require_field fd) l acc)
    = (snd acc && forallb (field_present fd) l)%bool.
Proof.
  induction l as [|field l IH]; intros [errs ok]; cbn [fold_left forallb].
  - now rewrite andb_true_r.
  - rewrite IH. unfold require_field, field_present.
    destruct (match get_field fd field with
              | Some v => truthy_string v | None => false end);
      cbn [snd negb andb].
    + reflexivity.
    + now rewrite andb_false_r.
Qed.

(** The form passes when every entry validates and every required field
    is filled in. *)
Lemma validateForm_flag :
  snd (validateForm fd)
  = (forallb entry_valid (Object_entries fd)
     && forallb (field_present fd) requiredFields)%bool.
Proof.
  unfold validateForm. rewrite require_fields_flag, validate_entries_flag.
  reflexivity.
Qed.

(** Apart from texts that parse to NaN, a validated fuel efficiency is
    positive when it reaches the engine. *)
Lemma validated_fuel_efficiency_positive :
  snd (validateForm fd) = true ->
  parseFloat (fuelEfficiency fd) <> NaN ->
  lt zero (v_fuelEfficiency (parse_values fd)) = true.
Proof.
  rewrite validateForm_flag. intros Hok Hnan.
  apply andb_prop in Hok as [Hentries Hreq].
  cbn [forallb Object_entries] in Hentries.
  apply andb_prop in Hentries as [_ Hentries].
  apply andb_prop in Hentries as [Hfe _].
  unfold entry_valid in Hfe. cbn [fst snd] in Hfe.
  cbn [forallb requiredFields] in Hreq.
  apply andb_prop in Hreq as [_ Hreq]. apply andb_prop in Hreq as [Hpres _].
  unfold field_present, get_field in Hpres.
  cbn in Hpres.
  destruct (fuelEfficiency fd) as [|c v] eqn:Hv; [discriminate |].
  unfold validateField in Hfe.
  change (String.eqb (String c v) "") with false in Hfe.
  change (String.eqb "fuelEfficiency" "carPrice") with false in Hfe.
  change (String.eqb "fuelEfficiency" "fuelEfficiency") with true in Hfe.
  cbv iota zeta in Hfe.
  cbn [parse_values v_fuelEfficiency]. rewrite Hv.
  destruct (le (parseFloat (String c v)) zero) eqn:Hle; [discriminate |].
  pose proof (not_le_zero_positive _ Hle Hnan) as Hpos.
  unfold or_else.
  destruct (parseFloat (String c v)) as [s | s | | s m e];
    try discriminate; try contradiction; exact Hpos.
Qed.

End Validation.

Section Calculation.

Variable st : State.

Lemma calculateCosts_errors :
  errors (calculateCosts st) = fst (validateForm (formData st)).
Proof.
  unfold calculateCosts.
  destruct (validateForm (formData st)) as [newErrors isValid]. reflexivity.
Qed.

(** A passed validation is followed by [setResult] on the engine's
    record. *)
Lemma calculateCosts_valid :
  snd (validateForm (formData st)) = true ->
  result (calculateCosts st)
  = Some (cost_engine (parse_values (formData st))).
Proof.
  unfold calculateCosts.
  destruct (validateForm (formData st)) as [newErrors isValid].
  cbn [snd result]. intros ->. reflexivity.
Qed.

(** A failed validation is the early return. *)
Lemma calculateCosts_invalid :
  snd (validateForm (formData st)) = false ->
  result (calculateCosts st) = result st.
Proof.
  unfold calculateCosts.
  destruct (validateForm (formData st)) as [newErrors isValid].
  cbn [snd result]. intros ->. reflexivity.
Qed.

End Calculation.

(** ** Exact operations on whole numbers *)

Import Exact Extremes.

Section WholeNumbers.

Lemma Zdigits2_unique (x d : Z) :
  0 < x -> 2 ^ (d - 1) <= x < 2 ^ d -> Zdigits2 x = d.
Proof.
  intros Hx [Hlow Hup]. destruct x as [|p|p]; try lia. cbn [Zdigits2].
  pose proof (digits2_pos_bound p) as Hu.
  pose proof (digits2_pos_lower p) as Hl.
  set (k := Z.pos (digits2_pos p)) in *.
  assert (Hk : 0 < k) by (subst k; lia).
  assert (Hd : 0 < d).
  { destruct (Z.le_gt_cases d 0) as [Hd | Hd]; [| exact Hd].
    assert (2 ^ d <= 2 ^ 0) by (apply Z.pow_le_mono_r; lia).
    change (2 ^ 0) with 1 in *. lia. }
  assert (H1 : 2 ^ (d - 1) < 2 ^ k) by lia.
  assert (H2 : 2 ^ (k - 1) < 2 ^ d) by lia.
  apply Z.pow_lt_mono_r_iff in H1; [| lia | lia].
  apply Z.pow_lt_mono_r_iff in H2; [| lia | lia].
  lia.
Qed.

Lemma Zdigits2_bounds (x : Z) :
  0 < x -> 0 < Zdigits2 x /\ 2 ^ (Zdigits2 x - 1) <= x < 2 ^ Zdigits2 x.
Proof.
  destruct x as [|p|p]; try lia. intros _. cbn [Zdigits2].
  split; [lia |]. split; [apply digits2_pos_lower | apply digits2_pos_bound].
Qed.

Lemma Zdigits2_shift (c k : Z) :
  0 < c -> 0 <= k -> Zdigits2 (c * 2 ^ k) = Zdigits2 c + k.
Proof.
  intros Hc Hk. destruct (Zdigits2_bounds c Hc) as (Hd & Hlow & Hup).
  assert (Hp : 0 < 2 ^ k) by (apply Z.pow_pos_nonneg; lia).
  apply Zdigits2_unique; [nia |].
  replace (Zdigits2 c + k - 1) with (Zdigits2 c - 1 + k) by lia.
  rewrite !Z.pow_add_r by lia. nia.
Qed.

Lemma Zdigits2_abs (c : Z) : Zdigits2 (Z.abs c) = Zdigits2 c.
Proof. destruct c; reflexivity. Qed.

(** Shifting out zeros leaves neither a round bit nor a sticky bit. *)
Lemma iter_pos_shr_1_exact (p : positive) :
  forall q,
    0 <= q ->
    SpecFloat.iter_pos shr_1 p (Build_shr_record (q * 2 ^ Zpos p) false false)
    = Build_shr_record q false false.
Proof.
  assert (Hone : forall q, 0 <= q ->
            shr_1 (Build_shr_record (q * 2) false false)
            = Build_shr_record q false false).
  { intros q Hq. destruct q as [|q|q]; [reflexivity | | lia].
    replace (Z.pos q * 2) with (Z.pos q~0) by lia. reflexivity. }
  induction p as [p IH | p IH |]; intros q Hq; cbn [SpecFloat.iter_pos].
  - assert (Hp : 0 < 2 ^ Z.pos p) by (apply Z.pow_pos_nonneg; lia).
    replace (q * 2 ^ Z.pos p~1) with (((q * 2 ^ Z.pos p) * 2 ^ Z.pos p) * 2).
    + rewrite Hone by nia. rewrite IH by nia. apply IH. exact Hq.
    + assert (E : 2 ^ Z.pos p~1 = 2 ^ Z.pos p * 2 ^ Z.pos p * 2).
      { replace (Z.pos p~1) with (Z.pos p + Z.pos p + 1) by lia.
        rewrite !Z.pow_add_r by lia. reflexivity. }
      rewrite E. ring.
  - assert (Hp : 0 < 2 ^ Z.pos p) by (apply Z.pow_pos_nonneg; lia).
    replace (q * 2 ^ Z.pos p~0) with ((q * 2 ^ Z.pos p) * 2 ^ Z.pos p).
    + rewrite IH by nia. apply IH. exact Hq.
    + assert (E : 2 ^ Z.pos p~0 = 2 ^ Z.pos p * 2 ^ Z.pos p).
      { replace (Z.pos p~0) with (Z.pos p + Z.pos p) by lia.
        rewrite Z.pow_add_r by lia. reflexivity. }
      rewrite E. ring.
  - change (2 ^ 1) with 2. apply Hone. exact Hq.
Qed.

Lemma fexp_small (d : Z) : 0 < d <= 53 -> fexp prec emax d = d - 53.
Proof. intros Hd. unfold fexp, emin, prec, emax. lia. Qed.

(** The first shift of the rounding, when only zeros are shifted out. *)
Lemma shr_fexp_exact (c K : Z) :
  0 < c -> Zdigits2 c <= 53 -> 53 - Zdigits2 c <= K -> 0 <= K ->
  shr_fexp prec emax (c * 2 ^ K) (- K) loc_Exact
  = (Build_shr_record (c * 2 ^ (53 - Zdigits2 c)) false false,
     Zdigits2 c - 53).
Proof.
  intros Hc Hd HK HK0. destruct (Zdigits2_bounds c Hc) as (Hd0 & _).
  unfold shr_fexp. rewrite Zdigits2_shift by assumption.
  replace (Zdigits2 c + K + - K) with (Zdigits2 c) by lia.
  rewrite fexp_small by lia. cbn [shr_record_of_loc]. unfold shr.
  destruct (Zdigits2 c - 53 - - K) as [|t|t] eqn:Ht.
  - f_equal; [| lia]. f_equal. f_equal. f_equal. lia.
  - replace (c * 2 ^ K) with ((c * 2 ^ (53 - Zdigits2 c)) * 2 ^ Z.pos t).
    + rewrite iter_pos_shr_1_exact; [f_equal; lia |].
      apply Z.mul_nonneg_nonneg; [lia | apply Z.pow_nonneg; lia].
    + rewrite <- Z.mul_assoc, <- Z.pow_add_r by lia. f_equal. f_equal. lia.
  - lia.
Qed.

(** Rounding a whole number of at most 53 bits changes nothing. *)
Lemma binary_round_aux_exact (s : bool) (c K : Z) :
  0 < c -> Zdigits2 c <= 53 -> 53 - Zdigits2 c <= K -> 0 <= K ->
  exists p,
    Zpos p = c * 2 ^ (53 - Zdigits2 c) /\
    binary_round_aux prec emax s (c * 2 ^ K) (- K) loc_Exact
    = S754_finite s p (Zdigits2 c - 53).
Proof.
  intros Hc Hd HK HK0. destruct (Zdigits2_bounds c Hc) as (Hd0 & _).
  unfold binary_round_aux. rewrite shr_fexp_exact by assumption.
  cbn [shr_m loc_of_shr_record round_nearest_even].
  pose proof (shr_fexp_exact c (53 - Zdigits2 c) Hc Hd ltac:(lia) ltac:(lia))
    as Hsecond.
  replace (- (53 - Zdigits2 c)) with (Zdigits2 c - 53) in Hsecond by lia.
  rewrite Hsecond. cbn [shr_m].
  assert (HM : 0 < c * 2 ^ (53 - Zdigits2 c))
    by (apply Z.mul_pos_pos; [lia | apply Z.pow_pos_nonneg; lia]).
  destruct (c * 2 ^ (53 - Zdigits2 c)) as [|p|p]; try lia.
  exists p. split; [reflexivity |].
  destruct (Z.leb_spec (Zdigits2 c - 53) (emax - prec)) as [_ | Hbig];
    [reflexivity | unfold emax, prec in Hbig; lia].
Qed.

Lemma Pos_iter_xO (p k : positive) :
  Zpos (Pos.iter xO p k) = Zpos p * 2 ^ Zpos k.
Proof.
  revert p. induction k as [| k IH] using Pos.peano_ind; intros p.
  - cbn [Pos.iter]. change (2 ^ 1) with 2. lia.
  - rewrite Pos.iter_succ, Pos2Z.inj_xO, IH, Pos2Z.inj_succ.
    rewrite Z.pow_succ_r by lia. ring.
Qed.

(** Normalising [c * 2 ^ k] at exponent [- k] gives the double of [c]. *)
Lemma binary_normalize_whole (c k : Z) (szero : bool) :
  c <> 0 -> Zdigits2 c <= 53 -> 0 <= k ->
  whole (binary_normalize prec emax (c * 2 ^ k) (- k) szero) c.
Proof.
  intros Hc Hd Hk.
  assert (Hp : 0 < 2 ^ k) by (apply Z.pow_pos_nonneg; lia).
  assert (Habs : 0 < Z.abs c) by lia.
  destruct (Zdigits2_bounds _ Habs) as (Hd0 & _).
  rewrite Zdigits2_abs in Hd0.
  assert (Hround : forall s q,
             Zpos q = Z.abs c * 2 ^ k ->
             exists p,
               Zpos p = Z.abs c * 2 ^ (53 - Zdigits2 c) /\
               binary_round prec emax s q (- k)
               = S754_finite s p (Zdigits2 c - 53)).
  { intros s q Hq. unfold binary_round.
    assert (Hdq : Zpos (digits2_pos q) = Zdigits2 c + k).
    { change (Zpos (digits2_pos q)) with (Zdigits2 (Zpos q)).
      rewrite Hq, Zdigits2_shift, Zdigits2_abs by lia. reflexivity. }
    rewrite Hdq.
    replace (Zdigits2 c + k + - k) with (Zdigits2 c) by lia.
    rewrite fexp_small by lia. unfold shl_align.
    destruct (Zdigits2 c - 53 - - k) as [|t|t] eqn:Ht.
    - rewrite Hq.
      destruct (binary_round_aux_exact s (Z.abs c) k)
        as (p & Hp1 & Hp2); rewrite ?Zdigits2_abs; try lia.
      rewrite Zdigits2_abs in Hp1, Hp2. exists p. split; assumption.
    - rewrite Hq.
      destruct (binary_round_aux_exact s (Z.abs c) k)
        as (p & Hp1 & Hp2); rewrite ?Zdigits2_abs; try lia.
      rewrite Zdigits2_abs in Hp1, Hp2. exists p. split; assumption.
    - rewrite Pos_iter_xO, Hq.
      replace (Z.abs c * 2 ^ k * 2 ^ Z.pos t)
        with (Z.abs c * 2 ^ (53 - Zdigits2 c))
        by (rewrite <- Z.mul_assoc, <- Z.pow_add_r by lia;
            f_equal; f_equal; lia).
      destruct (binary_round_aux_exact s (Z.abs c) (53 - Zdigits2 c))
        as (p & Hp1 & Hp2); rewrite ?Zdigits2_abs; try lia.
      rewrite Zdigits2_abs in Hp1, Hp2.
      replace (- (53 - Zdigits2 c)) with (Zdigits2 c - 53) in Hp2 by lia.
      exists p. split; assumption. }
  unfold whole. destruct c as [|c|c]; [contradiction | |].
  - assert (Hq : 0 < Z.pos c * 2 ^ k) by lia.
    destruct (Z.pos c * 2 ^ k) as [|q|q] eqn:Eq; try lia.
    cbn [binary_normalize]. apply (Hround false q).
    rewrite <- Eq. reflexivity.
  - assert (Hq : Z.neg c * 2 ^ k < 0) by lia.
    destruct (Z.neg c * 2 ^ k) as [|q|q] eqn:Eq; try lia.
    cbn [binary_normalize]. apply (Hround true q).
    change (Z.abs (Z.neg c)) with (Z.pos c). lia.
Qed.

Lemma whole_of_Z (c : Z) : Zdigits2 c <= 53 -> whole (of_Z c) c.
Proof.
  intros Hd. destruct (Z.eq_dec c 0) as [-> | Hc]; [reflexivity |].
  unfold of_Z.
  pose proof (binary_normalize_whole c 0 false Hc Hd ltac:(lia)) as H.
  change (2 ^ 0) with 1 in H. rewrite Z.mul_1_r in H. exact H.
Qed.

Lemma whole_intro (c : Z) (p : positive) :
  c <> 0 -> Zpos p = Z.abs c * 2 ^ (53 - Zdigits2 c) ->
  whole (S754_finite (c <? 0) p (Zdigits2 c - 53)) c.
Proof.
  intros Hc Hp. unfold whole.
  destruct c as [|c|c]; [contradiction | |]; exists p; split;
    first [exact Hp | reflexivity].
Qed.

Lemma whole_unique (x y : number) (c : Z) : whole x c -> whole y c -> x = y.
Proof.
  unfold whole. destruct c as [|c|c].
  - intros -> ->. reflexivity.
  - intros (p & Hp & ->) (q & Hq & ->). f_equal. lia.
  - intros (p & Hp & ->) (q & Hq & ->). f_equal. lia.
Qed.

Lemma Zdigits2_small (c : Z) : Z.abs c < 2 ^ 53 -> Zdigits2 c <= 53.
Proof.
  intros Hc. rewrite <- Zdigits2_abs. apply Zdigits2_le; lia.
Qed.

Lemma Zdigits2_nonneg (c : Z) : 0 <= Zdigits2 c.
Proof. destruct c; cbn [Zdigits2]; lia. Qed.

(** The aligned mantissa of the double of [c], with its sign. *)
Lemma whole_aligned (s : bool) (p : positive) (c ez : Z) :
  c <> 0 -> Zdigits2 c <= 53 -> ez <= Zdigits2 c - 53 ->
  Zpos p = Z.abs c * 2 ^ (53 - Zdigits2 c) -> s = (c <? 0) ->
  cond_Zopp s (Zpos (fst (shl_align p (Zdigits2 c - 53) ez))) = c * 2 ^ (- ez).
Proof.
  intros Hc Hd Hez Hp ->.
  assert (Hshift : Zpos (fst (shl_align p (Zdigits2 c - 53) ez))
                   = Z.abs c * 2 ^ (- ez)).
  { unfold shl_align.
    destruct (ez - (Zdigits2 c - 53)) as [|t|t] eqn:Ht; cbn [fst]; try lia.
    - rewrite Hp. f_equal. f_equal. lia.
    - rewrite Pos_iter_xO, Hp, <- Z.mul_assoc, <- Z.pow_add_r by lia.
      f_equal. f_equal. lia. }
  rewrite Hshift.
  destruct (Z.ltb_spec c 0); cbn [cond_Zopp]; lia.
Qed.

(** Subtraction of whole numbers is exact as long as the difference has
    at most 53 bits. *)
Lemma whole_sub (x y : number) (a b : Z) :
  whole x a -> whole y b ->
  Zdigits2 a <= 53 -> Zdigits2 b <= 53 -> Zdigits2 (a - b) <= 53 ->
  whole (sub x y) (a - b).
Proof.
  intros Hx Hy Ha Hb Hab. unfold sub.
  destruct (Z.eq_dec a 0) as [-> | Hane];
    destruct (Z.eq_dec b 0) as [-> | Hbne].
  - cbn in Hx, Hy. subst. reflexivity.
  - cbn in Hx. subst x. cbn [Z.sub Z.add].
    replace (0 - b) with (- b) by lia.
    unfold whole in Hy. destruct b as [|b|b]; [contradiction | |];
      destruct Hy as (p & Hp & ->); cbn [SFsub Z.opp whole];
      exists p; split; try reflexivity; exact Hp.
  - cbn in Hy. subst y. rewrite Z.sub_0_r.
    unfold whole in Hx |- *. destruct a as [|a|a]; [contradiction | |];
      destruct Hx as (p & Hp & ->); cbn [SFsub];
      exists p; split; try reflexivity; exact Hp.
  - assert (Hxf : exists p, Zpos p = Z.abs a * 2 ^ (53 - Zdigits2 a) /\
                            x = S754_finite (a <? 0) p (Zdigits2 a - 53))
      by (unfold whole in Hx; destruct a; [contradiction | |]; exact Hx).
    assert (Hyf : exists q, Zpos q = Z.abs b * 2 ^ (53 - Zdigits2 b) /\
                            y = S754_finite (b <? 0) q (Zdigits2 b - 53))
      by (unfold whole in Hy; destruct b; [contradiction | |]; exact Hy).
    destruct Hxf as (p & Hp & ->). destruct Hyf as (q & Hq & ->).
    cbn [SFsub].
    set (ez := Z.min (Zdigits2 a - 53) (Zdigits2 b - 53)).
    assert (Hez : ez <= 0) by (subst ez; lia).
    rewrite (whole_aligned _ p a ez) by (subst ez; lia || reflexivity).
    rewrite (whole_aligned _ q b ez) by (subst ez; lia || reflexivity).
    replace (a * 2 ^ (- ez) - b * 2 ^ (- ez)) with ((a - b) * 2 ^ (- ez))
      by ring.
    destruct (Z.eq_dec (a - b) 0) as [Hzero | Hne].
    + rewrite Hzero. reflexivity.
    + pose proof (binary_normalize_whole (a - b) (- ez) false Hne Hab
                    ltac:(lia)) as H.
      rewrite Z.opp_involutive in H. exact H.
Qed.

(** Multiplication of a whole number by a positive whole number is exact
    as long as the product has at most 53 bits. *)
Lemma whole_mul_positive (x y : number) (a b : Z) :
  whole x a -> whole y b -> 0 < b ->
  Zdigits2 a <= 53 -> Zdigits2 b <= 53 -> Zdigits2 (a * b) <= 53 ->
  whole (mul x y) (a * b).
Proof.
  intros Hx Hy Hb Hda Hdb Hdab. unfold mul.
  assert (Hyf : exists q, Zpos q = b * 2 ^ (53 - Zdigits2 b) /\
                          y = S754_finite false q (Zdigits2 b - 53)).
  { unfold whole in Hy. destruct b as [|b|b]; try lia. exact Hy. }
  destruct Hyf as (q & Hq & ->).
  destruct (Z.eq_dec a 0) as [-> | Hane].
  - cbn in Hx. subst x. reflexivity.
  - assert (Hxf : exists p, Zpos p = Z.abs a * 2 ^ (53 - Zdigits2 a) /\
                            x = S754_finite (a <? 0) p (Zdigits2 a - 53))
      by (unfold whole in Hx; destruct a; [contradiction | |]; exact Hx).
    destruct Hxf as (p & Hp & ->).
    cbn [SFmul]. rewrite xorb_false_r.
    assert (Habs : 0 < Z.abs a) by lia.
    destruct (Zdigits2_bounds _ Habs) as (Hd1 & Hl1 & Hu1).
    destruct (Zdigits2_bounds _ Hb) as (Hd2 & Hl2 & Hu2).
    rewrite Zdigits2_abs in Hd1, Hl1, Hu1.
    set (c := Z.abs a * b).
    assert (Hc : 0 < c) by (subst c; nia).
    assert (Hdc : Zdigits2 c = Zdigits2 (a * b)).
    { subst c. rewrite <- (Zdigits2_abs (a * b)), Z.abs_mul.
      rewrite (Z.abs_eq b) by lia. reflexivity. }
    destruct (Zdigits2_bounds _ Hc) as (Hd3 & Hl3 & Hu3).
    assert (Hlow : Zdigits2 a + Zdigits2 b - 1 <= Zdigits2 c).
    { assert (H : 2 ^ (Zdigits2 a - 1 + (Zdigits2 b - 1)) < 2 ^ Zdigits2 c).
      { rewrite Z.pow_add_r by lia. subst c.
        assert (0 < 2 ^ (Zdigits2 a - 1)) by (apply Z.pow_pos_nonneg; lia).
        assert (0 < 2 ^ (Zdigits2 b - 1)) by (apply Z.pow_pos_nonneg; lia).
        nia. }
      apply Z.pow_lt_mono_r_iff in H; lia. }
    set (K := 106 - Zdigits2 a - Zdigits2 b).
    assert (Hprod : Z.pos (p * q) = c * 2 ^ K).
    { rewrite Pos2Z.inj_mul, Hp, Hq. subst c K.
      replace (106 - Zdigits2 a - Zdigits2 b)
        with ((53 - Zdigits2 a) + (53 - Zdigits2 b)) by lia.
      rewrite Z.pow_add_r by lia. ring. }
    rewrite Hprod.
    replace (Zdigits2 a - 53 + (Zdigits2 b - 53)) with (- K)
      by (subst K; lia).
    destruct (binary_round_aux_exact (a <? 0) c K)
      as (r & Hr1 & Hr2); try (subst K; lia).
    rewrite Hr2, Hdc.
    assert (Hsign : (a * b <? 0) = (a <? 0)).
    { destruct (Z.ltb_spec a 0), (Z.ltb_spec (a * b) 0); try reflexivity; nia. }
    rewrite <- Hsign. apply whole_intro; [nia |].
    rewrite Hr1, Hdc. subst c.
    rewrite Z.abs_mul, (Z.abs_eq b) by lia. reflexivity.
Qed.

(** Twelve times a difference of whole amounts, computed either way. *)
Lemma twelve_times_difference (a b : Z) :
  Z.abs a < 2 ^ 48 -> Z.abs b < 2 ^ 48 ->
  sub (mul (of_Z a) (of_Z 12)) (mul (of_Z b) (of_Z 12))
  = of_Z (12 * (a - b)) /\
  mul (sub (of_Z a) (of_Z b)) (of_Z 12) = of_Z (12 * (a - b)).
Proof.
  intros Ha Hb. change (2 ^ 48) with 281474976710656 in Ha, Hb.
  assert (Hsmall : forall c, Z.abs c < 2 ^ 53 -> Zdigits2 c <= 53)
    by exact Zdigits2_small.
  change (2 ^ 53) with 9007199254740992 in Hsmall.
  assert (H12 : whole (of_Z 12) 12) by (apply whole_of_Z; apply Hsmall; lia).
  assert (Hwa : whole (of_Z a) a) by (apply whole_of_Z; apply Hsmall; lia).
  assert (Hwb : whole (of_Z b) b) by (apply whole_of_Z; apply Hsmall; lia).
  assert (Hresult : whole (of_Z (12 * (a - b))) (12 * (a - b)))
    by (apply whole_of_Z; apply Hsmall; lia).
  split.
  - apply (whole_unique _ _ (12 * (a - b))); [| exact Hresult].
    replace (12 * (a - b)) with (a * 12 - b * 12) by ring.
    apply whole_sub; try (apply Hsmall; lia);
      apply whole_mul_positive; try assumption; try lia; apply Hsmall; lia.
  - apply (whole_unique _ _ (12 * (a - b))); [| exact Hresult].
    replace (12 * (a - b)) with ((a - b) * 12) by ring.
    apply whole_mul_positive; try assumption; try lia;
      try (apply Hsmall; lia).
    apply whole_sub; try assumption; apply Hsmall; lia.
Qed.

End WholeNumbers.

(** ** The engine, the validator and the formatter *)

Section Engine.

(** C1. After a calculation whose validation passed, the result holds the
    four monthly components and their sum, added in the order fuel,
    maintenance, insurance, depreciation, is the very number stored as
    [totalCarCost]; the comparison [===] of the two is true unless the
    total is NaN. *)
Theorem cost_components_sum_to_total (st : State) :
  snd (validateForm (formData st)) = true ->
  exists r,
    result (calculateCosts st) = Some r /\
    add (add (add (fuelCosts r) (maintenanceCost r)) (insuranceCost r))
      (depreciationCost r) = totalCarCost r /\
    (totalCarCost r <> NaN ->
     strict_eq
       (add (add (add (fuelCosts r) (maintenanceCost r)) (insuranceCost r))
          (depreciationCost r))
       (totalCarCost r) = true).
Proof.
  intros Hok. eexists. split; [apply calculateCosts_valid; exact Hok |].
  cbn [cost_engine fuelCosts maintenanceCost insuranceCost depreciationCost
       totalCarCost].
  split; [reflexivity |].
  intros Hnan. apply SFeqb_refl. exact Hnan.
Qed.

Lemma cost_components_sum_to_total_scenario :
  exists r,
    result (calculateCosts scenario) = Some r /\
    add (add (add (fuelCosts r) (maintenanceCost r)) (insuranceCost r))
      (depreciationCost r) = totalCarCost r /\
    (totalCarCost r <> NaN ->
     strict_eq
       (add (add (add (fuelCosts r) (maintenanceCost r)) (insuranceCost r))
          (depreciationCost r))
       (totalCarCost r) = true).
Proof.
  apply (cost_components_sum_to_total scenario).
  vm_compute. reflexivity.
Defined.

(** The total is NaN when a validated form divides zero by zero; [===]
    then tells the sum and the total apart although they are the same
    number. *)
Lemma nan_total_not_strictly_equal :
  exists r,
    result (calculateCosts lone_point_no_distance) = Some r /\
    totalCarCost r = NaN /\
    strict_eq
      (add (add (add (fuelCosts r) (maintenanceCost r)) (insuranceCost r))
         (depreciationCost r))
      (totalCarCost r) = false.
Proof.
  eexists. split; [vm_compute; reflexivity |]. by_evaluation.
Qed.

(** C2, at the failing input.  A lone decimal point passes the input
    filter, parses to NaN, passes the whole-form validation, and reaches
    the engine as a fuel efficiency of zero: the fuel cost and the total
    are infinite. *)
Theorem lone_point_reaches_engine :
  fuelEfficiency (formData lone_point) = "." /\
  input_filter "." = true /\
  parseFloat "." = NaN /\
  validateForm (formData lone_point) = (∅, true) /\
  v_fuelEfficiency (parse_values (formData lone_point)) = of_Z 0 /\
  lt zero (v_fuelEfficiency (parse_values (formData lone_point))) = false /\
  exists r,
    result (calculateCosts lone_point) = Some r /\
    fuelCosts r = Infinity /\ totalCarCost r = Infinity.
Proof.
  split_conj; try evaluate.
  eexists. split; [vm_compute; reflexivity |]. by_evaluation.
Qed.

(** C3. The worked scenario, step by step, in double arithmetic. *)
Theorem scenario_figures :
  let values := parse_values (formData scenario) in
  snd (validateForm (formData scenario)) = true /\
  monthlyDistance values = of_Z 440 /\
  monthlyFuelCosts values = mul (div (of_Z 440) (of_Z 15)) (of_Z 100) /\
  monthlyDepreciation values
  = div (sub (of_Z 600000) (of_Z 200000)) (of_Z 60) /\
  monthlyCarCosts values
  = add (add (add (monthlyFuelCosts values) (of_Z 1000))
           (div (of_Z 12000) (of_Z 12)))
      (monthlyDepreciation values) /\
  monthlyCarCosts values = of_Z 11600 /\
  exists r,
    result (calculateCosts scenario) = Some r /\
    totalCarCost r = monthlyCarCosts values /\
    monthlySavings r = sub (of_Z 2000) (monthlyCarCosts values) /\
    monthlySavings r = of_Z (-9600) /\
    yearlyEmissions r
    = div (mul (mul (of_Z 440) (of_Z 12)) (of_decimal 404 (-3))) (of_Z 1000) /\
    toFixed 2 (fuelCosts r) = "2933.33" /\
    toFixed 2 (depreciationCost r) = "6666.67" /\
    toFixed 2 (yearlyEmissions r) = "2.13".
Proof.
  cbv zeta. split_conj; try evaluate.
  eexists. split; [vm_compute; reflexivity |]. by_evaluation.
Qed.

(** C4, as stated, fails: twelve times the monthly savings is not always
    the stored yearly savings. *)
Lemma yearly_savings_not_twelve_monthly :
  ~ (forall st r,
        snd (validateForm (formData st)) = true ->
        result (calculateCosts st) = Some r ->
        yearlySavings r
        = mul (sub (totalCommuteCost r) (totalCarCost r)) (of_Z 12)).
Proof.
  intros H.
  specialize (H small_amounts
                (cost_engine (parse_values (formData small_amounts)))).
  assert (Hok : snd (validateForm (formData small_amounts)) = true)
    by (vm_compute; reflexivity).
  assert (Hres : result (calculateCosts small_amounts)
                 = Some (cost_engine (parse_values (formData small_amounts))))
    by (apply calculateCosts_valid; exact Hok).
  specialize (H Hok Hres). vm_compute in H. discriminate H.
Qed.

(** C4, amended.  The yearly savings are the difference of the two yearly
    costs, each of them twelve times the monthly cost, every operation
    rounded to a double; the monthly savings are the difference of the
    monthly costs.  When both monthly costs are whole numbers below
    [2 ^ 48] in magnitude no operation rounds, and the yearly savings are
    twelve times the monthly savings, the double of [12 * (a - b)]. *)
Theorem yearly_savings_difference_of_yearly_costs (st : State) :
  snd (validateForm (formData st)) = true ->
  exists r,
    result (calculateCosts st) = Some r /\
    yearlySavings r
    = sub (mul (totalCommuteCost r) (of_Z 12)) (mul (totalCarCost r) (of_Z 12)) /\
    monthlySavings r = sub (totalCommuteCost r) (totalCarCost r) /\
    (forall a b,
        Z.abs a < 2 ^ 48 -> Z.abs b < 2 ^ 48 ->
        totalCommuteCost r = of_Z a -> totalCarCost r = of_Z b ->
        yearlySavings r = mul (monthlySavings r) (of_Z 12) /\
        yearlySavings r = of_Z (12 * (a - b))).
Proof.
  intros Hok. eexists. split; [apply calculateCosts_valid; exact Hok |].
  split; [reflexivity |]. split; [reflexivity |].
  intros a b Ha Hb.
  cbn [cost_engine yearlySavings monthlySavings totalCommuteCost totalCarCost].
  unfold yearlyCommuteCosts, yearlyCarCosts.
  intros -> ->.
  destruct (twelve_times_difference a b Ha Hb) as [Hyearly Hmonthly].
  rewrite Hyearly, Hmonthly. split; reflexivity.
Qed.

Lemma yearly_savings_difference_scenario :
  exists r,
    result (calculateCosts scenario) = Some r /\
    yearlySavings r = mul (monthlySavings r) (of_Z 12) /\
    yearlySavings r = of_Z (12 * (2000 - 11600)).
Proof.
  assert (Hok : snd (validateForm (formData scenario)) = true)
    by (vm_compute; reflexivity).
  destruct (yearly_savings_difference_of_yearly_costs scenario Hok)
    as (r & Hr & _ & _ & Hwhole).
  exists r. split; [exact Hr |].
  rewrite (calculateCosts_valid scenario Hok) in Hr.
  assert (Hrecord : cost_engine (parse_values (formData scenario)) = r)
    by congruence.
  apply (Hwhole 2000 11600); [lia | lia | |];
    rewrite <- Hrecord; vm_compute; reflexivity.
Defined.

(** Beyond whole amounts the two can be far apart: with a maintenance
    cost and a public transport cost of [10 ^ 308] both yearly costs
    overflow, the stored yearly savings are NaN and twelve times the
    monthly savings is zero. *)
Lemma yearly_savings_nan_for_huge_costs :
  snd (validateForm (formData huge_costs)) = true /\
  exists r,
    result (calculateCosts huge_costs) = Some r /\
    yearlySavings r = NaN /\
    mul (monthlySavings r) (of_Z 12) = of_Z 0.
Proof.
  split; [vm_compute; reflexivity |].
  eexists. split; [vm_compute; reflexivity |]. by_evaluation.
Qed.

End Engine.

Section Validator.

(** C5. With the car price empty, the whole-form validation records
    "This field is required" for it and fails, and the calculation leaves
    the stored result as it was. *)
Theorem missing_car_price_blocks_calculation (st : State) :
  carPrice (formData st) = "" ->
  fst (validateForm (formData st)) !! "carPrice"
  = Some "This field is required" /\
  snd (validateForm (formData st)) = false /\
  errors (calculateCosts st) !! "carPrice" = Some "This field is required" /\
  result (calculateCosts st) = result st.
Proof.
  intros Hempty.
  assert (Hflag : snd (validateForm (formData st)) = false).
  { rewrite validateForm_flag. cbn [forallb requiredFields].
    unfold field_present at 1, get_field. cbn [Object_entries assoc].
    change (String.eqb "carPrice" "carPrice") with true. cbv iota.
    rewrite Hempty. cbn [truthy_string andb]. apply andb_false_r. }
  assert (Hmap : fst (validateForm (formData st)) !! "carPrice"
                 = Some "This field is required").
  { unfold validateForm.
    destruct (fold_left validate_entry (Object_entries (formData st)) (∅, true))
      as [checked ok].
    unfold requiredFields. cbn [fold_left].
    unfold require_field, get_field. cbn [Object_entries assoc].
    repeat match goal with
           | |- context [String.eqb ?a ?b] =>
               let v := eval vm_compute in (String.eqb a b) in
               change (String.eqb a b) with v
           end.
    cbv iota. rewrite Hempty. cbn [truthy_string negb].
    destruct (fuelEfficiency (formData st)), (fuelPrice (formData st)),
      (workingDaysPerMonth (formData st)); cbn [truthy_string negb fst];
      rewrite ?lookup_insert_ne by discriminate; apply lookup_insert_eq. }
  split; [exact Hmap |]. split; [exact Hflag |].
  rewrite calculateCosts_errors.
  split; [exact Hmap | apply calculateCosts_invalid; exact Hflag].
Qed.

Lemma missing_car_price_example :
  fst (validateForm (formData car_price_missing)) !! "carPrice"
  = Some "This field is required" /\
  snd (validateForm (formData car_price_missing)) = false /\
  errors (calculateCosts car_price_missing) !! "carPrice"
  = Some "This field is required" /\
  result (calculateCosts car_price_missing) = result car_price_missing.
Proof.
  apply (missing_car_price_blocks_calculation car_price_missing).
  reflexivity.
Defined.

(** C6. For a nonempty text of the working-days field the validator
    answers "Working days must be between 1 and 31" exactly when the
    parsed number is at most 0 or above 31, and the empty string
    otherwise; it rejects 0 and 32 and accepts 1 and 31. *)
Theorem working_days_between_1_and_31 (value : string) :
  value <> "" ->
  let out_of_range :=
    (le (parseFloat value) zero || gt (parseFloat value) (of_Z 31))%bool in
  (out_of_range = true <->
   validateField "workingDaysPerMonth" value
   = "Working days must be between 1 and 31") /\
  (out_of_range = false <->
   validateField "workingDaysPerMonth" value = "") /\
  validateField "workingDaysPerMonth" "0"
  = "Working days must be between 1 and 31" /\
  validateField "workingDaysPerMonth" "32"
  = "Working days must be between 1 and 31" /\
  validateField "workingDaysPerMonth" "1" = "" /\
  validateField "workingDaysPerMonth" "31" = "".
Proof.
  intros Hne. cbv zeta.
  assert (Hv : validateField "workingDaysPerMonth" value
               = if (le (parseFloat value) zero
                     || gt (parseFloat value) (of_Z 31))%bool
                 then "Working days must be between 1 and 31" else "").
  { unfold validateField.
    destruct (String.eqb_spec value "") as [Heq | _]; [contradiction |].
    reflexivity. }
  rewrite Hv.
  destruct (le (parseFloat value) zero || gt (parseFloat value) (of_Z 31))%bool.
  - split_conj; try evaluate;
      split; intros; try reflexivity; discriminate.
  - split_conj; try evaluate;
      split; intros; try reflexivity; discriminate.
Qed.

Lemma working_days_example :
  let out_of_range :=
    (le (parseFloat "31.5") zero || gt (parseFloat "31.5") (of_Z 31))%bool in
  (out_of_range = true <->
   validateField "workingDaysPerMonth" "31.5"
   = "Working days must be between 1 and 31") /\
  (out_of_range = false <->
   validateField "workingDaysPerMonth" "31.5" = "") /\
  validateField "workingDaysPerMonth" "0"
  = "Working days must be between 1 and 31" /\
  validateField "workingDaysPerMonth" "32"
  = "Working days must be between 1 and 31" /\
  validateField "workingDaysPerMonth" "1" = "" /\
  validateField "workingDaysPerMonth" "31" = "".
Proof.
  apply (working_days_between_1_and_31 "31.5").
  discriminate.
Defined.

End Validator.

Section Defaults.

(** C8. A raw text that does not parse to a number (the empty text among
    them) yields 0 in the object [values], and 1 for the years until
    resale; the result of a validated calculation is computed from these
    values. *)
Theorem unparsable_fields_default (st : State) :
  snd (validateForm (formData st)) = true ->
  let fd := formData st in
  let values := parse_values fd in
  result (calculateCosts st) = Some (cost_engine values) /\
  parseFloat "" = NaN /\
  (parseFloat (carPrice fd) = NaN -> v_carPrice values = of_Z 0) /\
  (parseFloat (fuelEfficiency fd) = NaN -> v_fuelEfficiency values = of_Z 0) /\
  (parseFloat (fuelPrice fd) = NaN -> v_fuelPrice values = of_Z 0) /\
  (parseFloat (distanceToWork fd) = NaN -> v_distanceToWork values = of_Z 0) /\
  (parseFloat (workingDaysPerMonth fd) = NaN ->
   v_workingDaysPerMonth values = of_Z 0) /\
  (parseFloat (maintenanceCosts fd) = NaN ->
   v_maintenanceCosts values = of_Z 0) /\
  (parseFloat (insuranceCosts fd) = NaN -> v_insuranceCosts values = of_Z 0) /\
  (parseFloat (resaleValue fd) = NaN -> v_resaleValue values = of_Z 0) /\
  (parseFloat (resaleYears fd) = NaN -> v_resaleYears values = of_Z 1) /\
  (parseFloat (publicTransportCosts fd) = NaN ->
   v_publicTransportCosts values = of_Z 0).
Proof.
  intros Hok. cbv zeta. split.
  - apply calculateCosts_valid. exact Hok.
  - split; [reflexivity |].
    split_conj; intros Hnan;
      cbn [parse_values v_carPrice v_fuelEfficiency v_fuelPrice
           v_distanceToWork v_workingDaysPerMonth v_maintenanceCosts
           v_insuranceCosts v_resaleValue v_resaleYears
           v_publicTransportCosts];
      rewrite Hnan; reflexivity.
Qed.

Lemma unparsable_fields_default_small_amounts :
  let values := parse_values (formData small_amounts) in
  result (calculateCosts small_amounts) = Some (cost_engine values) /\
  v_distanceToWork values = of_Z 0 /\
  v_resaleYears values = of_Z 1.
Proof.
  destruct (unparsable_fields_default small_amounts)
    as (Hres & _ & _ & _ & _ & Hdistance & _ & _ & _ & _ & Hyears & _).
  - vm_compute. reflexivity.
  - cbv zeta. split; [exact Hres |].
    split; [apply Hdistance | apply Hyears]; vm_compute; reflexivity.
Defined.

(** C9. The monthly depreciation stored in the result is
    (carPrice - resaleValue) / (resaleYears * 12), whatever its sign, and
    it is the last summand of the total from which both savings figures
    are taken; with a resale value above the price, the stored
    depreciation, the total and therefore the savings carry the sign
    unchanged. *)
Theorem depreciation_stored_unclamped :
  (forall st,
      snd (validateForm (formData st)) = true ->
      let values := parse_values (formData st) in
      exists r,
        result (calculateCosts st) = Some r /\
        depreciationCost r
        = div (sub (v_carPrice values) (v_resaleValue values))
            (mul (v_resaleYears values) (of_Z 12)) /\
        totalCarCost r
        = add (add (add (fuelCosts r) (maintenanceCost r)) (insuranceCost r))
            (depreciationCost r) /\
        monthlySavings r = sub (totalCommuteCost r) (totalCarCost r) /\
        yearlySavings r
        = sub (mul (totalCommuteCost r) (of_Z 12))
            (mul (totalCarCost r) (of_Z 12))) /\
  (exists r,
      result (calculateCosts appreciating) = Some r /\
      depreciationCost r = of_Z (-10000) /\
      totalCarCost r = of_Z (-10000) /\
      monthlySavings r = of_Z 10000 /\
      yearlySavings r = of_Z 120000 /\
      formatIndianNumber (depreciationCost r) = "-10000.00").
Proof.
  split.
  - intros st Hok. cbv zeta.
    eexists. split; [apply calculateCosts_valid; exact Hok |].
    split_conj; reflexivity.
  - eexists. split; [vm_compute; reflexivity |]. by_evaluation.
Qed.

Lemma depreciation_stored_unclamped_appreciating :
  let values := parse_values (formData appreciating) in
  exists r,
    result (calculateCosts appreciating) = Some r /\
    depreciationCost r
    = div (sub (v_carPrice values) (v_resaleValue values))
        (mul (v_resaleYears values) (of_Z 12)) /\
    totalCarCost r
    = add (add (add (fuelCosts r) (maintenanceCost r)) (insuranceCost r))
        (depreciationCost r) /\
    monthlySavings r = sub (totalCommuteCost r) (totalCarCost r) /\
    yearlySavings r
    = sub (mul (totalCommuteCost r) (of_Z 12))
        (mul (totalCarCost r) (of_Z 12)).
Proof.
  apply (proj1 depreciation_stored_unclamped appreciating).
  vm_compute. reflexivity.
Defined.

End Defaults.

Section Formatter.

Lemma lt_below (x : number) (m1 m2 : positive) (e1 e2 : Z) :
  lt x (S754_finite false m1 e1) = true -> e1 < e2 ->
  ge x (S754_finite false m2 e2) = false.
Proof.
  unfold lt, ge, SFltb, SFleb.
  destruct x as [s | s | | s m e]; cbn [SFcompare]; try discriminate;
    try reflexivity.
  - destruct s; [reflexivity | discriminate].
  - destruct s; [reflexivity |].
    destruct (Z.compare_spec e e1) as [He | He | He]; try discriminate;
      intros _ Hlt.
    + subst e. rewrite (proj2 (Z.compare_gt_iff e2 e1)) by lia. reflexivity.
    + rewrite (proj2 (Z.compare_gt_iff e2 e)) by lia. reflexivity.
Qed.

Lemma of_Z_lakh : of_Z 100000 = S754_finite false 6871947673600000 (-36).
Proof. vm_compute. reflexivity. Qed.

Lemma of_Z_crore : of_Z 10000000 = S754_finite false 5368709120000000 (-29).
Proof. vm_compute. reflexivity. Qed.

Lemma below_thousand_unscaled (num : number) :
  lt num (of_Z 1000) = true -> formatIndianNumber num = toFixed 2 num.
Proof.
  intros Hlt. unfold formatIndianNumber.
  rewrite (lt_not_ge _ _ Hlt).
  rewrite of_Z_thousand in Hlt. rewrite of_Z_lakh, of_Z_crore.
  rewrite (lt_below _ _ _ _ _ Hlt) by lia.
  rewrite (lt_below _ _ _ _ _ Hlt) by lia.
  reflexivity.
Qed.

Lemma scaled_two_decimals (num c : number) (suffix : string) :
  lt zero c = true -> ge num c = true -> fixed_range (div num c) = true ->
  exists n,
    0 <= n /\ nearest_hundredths (div num c) n /\
    toFixed 2 (div num c) +:+ suffix = two_decimals false n +:+ suffix.
Proof.
  intros Hc Hge Hr.
  destruct (toFixed_two_decimals _ Hr) as (n & Hn & Hnear & Hfix).
  exists n. split; [exact Hn |]. split; [exact Hnear |].
  rewrite Hfix, (ge_positive_div_sign num c Hc Hge). reflexivity.
Qed.

(** C7, as stated, fails: at [10 ^ 28] the scaled value of the crore
    band reaches [10 ^ 21] and is no longer shown with two decimal
    places. *)
Lemma crore_band_not_always_two_decimals :
  ~ (forall num,
        valid_binary prec emax num = true ->
        ge num (of_Z 10000000) = true ->
        exists n, formatIndianNumber num = two_decimals false n +:+ " Cr").
Proof.
  intros H.
  destruct (H (of_Z (10 ^ 28))) as [n Hn]; try (vm_compute; reflexivity).
  apply (f_equal (decimal_point_at 3)) in Hn.
  pose proof (decimal_point_at_two_decimals false n " Cr") as Hp.
  change (String.length " Cr") with 3%nat in Hp. rewrite Hp in Hn.
  vm_compute in Hn. discriminate Hn.
Qed.

(** C7, amended.  A double in the crore, lakh or thousand band is divided
    by 10,000,000, 100,000 or 1,000 and the quotient is shown with the
    suffix Cr, L or K; a double from 0 up to 1,000 is shown unscaled and
    without suffix.  What is shown is the nearest multiple of 1/100 with
    exactly two decimal places; in the crore band this holds as long as
    the quotient is below [10 ^ 21].  The three band boundaries give
    "1.00 K", "1.00 L" and "1.00 Cr". *)
Theorem formatIndianNumber_bands (num : number) :
  valid_binary prec emax num = true ->
  (ge num (of_Z 10000000) = true ->
   lt (div num (of_Z 10000000)) (of_Z (10 ^ 21)) = true ->
   exists n,
     0 <= n /\ nearest_hundredths (div num (of_Z 10000000)) n /\
     formatIndianNumber num = two_decimals false n +:+ " Cr") /\
  (ge num (of_Z 100000) = true -> lt num (of_Z 10000000) = true ->
   exists n,
     0 <= n /\ nearest_hundredths (div num (of_Z 100000)) n /\
     formatIndianNumber num = two_decimals false n +:+ " L") /\
  (ge num (of_Z 1000) = true -> lt num (of_Z 100000) = true ->
   exists n,
     0 <= n /\ nearest_hundredths (div num (of_Z 1000)) n /\
     formatIndianNumber num = two_decimals false n +:+ " K") /\
  (ge num zero = true -> lt num (of_Z 1000) = true ->
   exists n,
     0 <= n /\ nearest_hundredths num n /\
     formatIndianNumber num = two_decimals false n) /\
  formatIndianNumber (of_Z 1000) = "1.00 K" /\
  formatIndianNumber (of_Z 100000) = "1.00 L" /\
  formatIndianNumber (of_Z 10000000) = "1.00 Cr".
Proof.
  intros Hv. split_conj; try evaluate.
  - intros Hge Hr. unfold formatIndianNumber. rewrite Hge.
    apply scaled_two_decimals; [reflexivity | exact Hge |].
    revert Hge Hr. rewrite of_Z_crore.
    apply quotient_below_1e21_fixed_range.
  - intros Hge Hlt. unfold formatIndianNumber.
    rewrite (lt_not_ge _ _ Hlt), Hge.
    apply scaled_two_decimals; [reflexivity | exact Hge |].
    revert Hge Hlt. rewrite of_Z_lakh, of_Z_crore. intros Hge Hlt.
    apply (band_quotient_fixed_range num _ _ _ _ 8 Hv Hge Hlt);
      [lia | reflexivity].
  - intros Hge Hlt. unfold formatIndianNumber.
    rewrite (lt_not_ge _ _ Hlt), Hge.
    assert (Hcr : ge num (of_Z 10000000) = false).
    { revert Hlt. rewrite of_Z_lakh, of_Z_crore. intros Hlt.
      apply (lt_below _ _ _ _ _ Hlt). lia. }
    rewrite Hcr.
    apply scaled_two_decimals; [reflexivity | exact Hge |].
    revert Hge Hlt. rewrite of_Z_thousand, of_Z_lakh. intros Hge Hlt.
    apply (band_quotient_fixed_range num _ _ _ _ 8 Hv Hge Hlt);
      [lia | reflexivity].
  - intros Hge Hlt. rewrite (below_thousand_unscaled _ Hlt).
    assert (Hsign : shown_negative num = false).
    { destruct num as [s | s | | s m e]; try reflexivity.
      destruct s; [discriminate Hge | reflexivity]. }
    assert (Hr : fixed_range num = true).
    { apply below_thousand_fixed_range; [exact Hv | exact Hlt |].
      destruct num as [s | s | | s m e]; try reflexivity;
        try discriminate Hge.
      - destruct s; [discriminate Hge | discriminate Hlt].
      - destruct s; [discriminate Hge | reflexivity]. }
    destruct (toFixed_two_decimals _ Hr) as (n & Hn & Hnear & Hfix).
    exists n. split; [exact Hn |]. split; [exact Hnear |].
    rewrite Hfix, Hsign. reflexivity.
Qed.

Lemma formatIndianNumber_bands_example :
  (exists n,
      0 <= n /\
      nearest_hundredths (div (parseFloat "250000000") (of_Z 10000000)) n /\
      formatIndianNumber (parseFloat "250000000")
      = two_decimals false n +:+ " Cr") /\
  (exists n,
      0 <= n /\
      nearest_hundredths (div (parseFloat "1234567.891") (of_Z 100000)) n /\
      formatIndianNumber (parseFloat "1234567.891")
      = two_decimals false n +:+ " L") /\
  (exists n,
      0 <= n /\
      nearest_hundredths (div (parseFloat "2933.333") (of_Z 1000)) n /\
      formatIndianNumber (parseFloat "2933.333")
      = two_decimals false n +:+ " K") /\
  (exists n,
      0 <= n /\ nearest_hundredths (parseFloat "999.995") n /\
      formatIndianNumber (parseFloat "999.995") = two_decimals false n).
Proof.
  split; [| split; [| split]].
  - apply (formatIndianNumber_bands (parseFloat "250000000"));
      vm_compute; reflexivity.
  - apply (formatIndianNumber_bands (parseFloat "1234567.891"));
      vm_compute; reflexivity.
  - apply (formatIndianNumber_bands (parseFloat "2933.333"));
      vm_compute; reflexivity.
  - apply (formatIndianNumber_bands (parseFloat "999.995"));
      vm_compute; reflexivity.
Defined.

(** C10, as stated, fails: a number at or below [- 10 ^ 21] is below
    1,000 and is not shown with two decimal places. *)
Lemma very_negative_not_two_decimals :
  ~ (forall num,
        valid_binary prec emax num = true ->
        lt num (of_Z 1000) = true ->
        exists neg n, formatIndianNumber num = two_decimals neg n).
Proof.
  intros H.
  destruct (H (of_Z (- 10 ^ 21))) as (neg & n & Hn);
    try (vm_compute; reflexivity).
  apply (f_equal (fun s => decimal_point_at 0 (s +:+ ""))) in Hn.
  cbv beta in Hn.
  pose proof (decimal_point_at_two_decimals neg n "") as Hp.
  change (String.length "") with 0%nat in Hp. rewrite Hp in Hn.
  vm_compute in Hn. discriminate Hn.
Qed.

(** C10, amended.  A double strictly between [- 10 ^ 21] and 1,000,
    negative ones included, skips the three bands: it is shown as the
    nearest multiple of 1/100 of its magnitude with exactly two decimal
    places, a minus sign in front when it is below zero, and no suffix. *)
Theorem below_thousand_two_decimals (num : number) :
  valid_binary prec emax num = true ->
  lt num (of_Z 1000) = true ->
  gt num (of_Z (- 10 ^ 21)) = true ->
  exists n,
    0 <= n /\ nearest_hundredths num n /\
    formatIndianNumber num = two_decimals (shown_negative num) n.
Proof.
  intros Hv Hlt Hgt.
  rewrite (below_thousand_unscaled _ Hlt).
  apply toFixed_two_decimals.
  apply below_thousand_fixed_range; assumption.
Qed.

Lemma below_thousand_two_decimals_example :
  exists n,
    0 <= n /\ nearest_hundredths (of_Z (-10000)) n /\
    formatIndianNumber (of_Z (-10000))
    = two_decimals (shown_negative (of_Z (-10000))) n.
Proof.
  apply (below_thousand_two_decimals (of_Z (-10000)));
    vm_compute; reflexivity.
Defined.

End Formatter.

(** ** Beyond the fixed notation *)

Section BeyondFixedNotation.

(** From [10 ^ 21] on, and for the infinities and NaN, [toFixed] hands
    the number to [Number::toString]. *)
Lemma toFixed_beyond_fixed_range (f : nat) (x : number) :
  fixed_range x = false -> toFixed f x = toString x.
Proof.
  destruct x as [s | s | | s m e]; cbn [fixed_range toFixed toString];
    try reflexivity; try discriminate.
  intros Hr. apply Z.ltb_ge in Hr.
  destruct (Z.leb_spec (10 ^ 21 * denominator e) (numerator m e));
    [destruct s; reflexivity | lia].
Qed.

(** In the crore band a quotient outside the fixed range is shown as
    [Number::toString] writes it, followed by the suffix; below 1,000 a
    number outside the fixed range is shown as [Number::toString] writes
    it, without suffix. *)
Lemma formatIndianNumber_beyond_fixed_range (num : number) :
  (ge num (of_Z 10000000) = true ->
   fixed_range (div num (of_Z 10000000)) = false ->
   formatIndianNumber num = toString (div num (of_Z 10000000)) +:+ " Cr") /\
  (lt num (of_Z 1000) = true -> fixed_range num = false ->
   formatIndianNumber num = toString num).
Proof.
  split.
  - intros Hge Hr. unfold formatIndianNumber. rewrite Hge.
    now rewrite toFixed_beyond_fixed_range.
  - intros Hlt Hr. rewrite (below_thousand_unscaled _ Hlt).
    now apply toFixed_beyond_fixed_range.
Qed.

(** A double at or below [- 10 ^ 21] is outside the fixed range. *)
Lemma very_negative_outside_fixed_range (num : number) :
  valid_binary prec emax num = true ->
  le num (of_Z (- 10 ^ 21)) = true ->
  fixed_range num = false /\ lt num (of_Z 1000) = true.
Proof.
  rewrite of_Z_minus_1e21, of_Z_thousand. intros Hv Hle.
  unfold le, SFleb in Hle.
  destruct num as [s | s | | s m e]; cbn [SFcompare] in Hle;
    try discriminate.
  - destruct s; [split; reflexivity | discriminate].
  - destruct s; [| discriminate]. split; [| reflexivity].
    cbn [fixed_range]. apply Z.ltb_ge.
    assert (He : 17 < e \/ (e = 17 /\ 7629394531250000 <= Zpos m)).
    { revert Hle. destruct (Z.compare_spec e 17) as [He | He | He];
        try discriminate; [| intros _; left; lia].
      subst e. rewrite compare_cont_Z.
      destruct (Z.compare_spec (Zpos m) 7629394531250000); try discriminate;
        intros _; right; split; try reflexivity; lia. }
    clear Hle. unfold numerator, denominator.
    rewrite (Z.max_l e 0), (Z.max_r (- e) 0) by lia.
    change (2 ^ 0) with 1. change (10 ^ 21) with 1000000000000000000000.
    destruct He as [He | [-> Hm]].
    + revert Hv. cbn [valid_binary]. unfold bounded, canonical_mantissa, fexp.
      intros Hb. apply andb_prop in Hb as [Hc _]. apply Z.eqb_eq in Hc.
      unfold prec, emin, emax in Hc.
      assert (Hd : Zpos (digits2_pos m) = 53) by lia.
      pose proof (digits2_pos_lower m) as Hlow. rewrite Hd in Hlow.
      change (2 ^ (53 - 1)) with 4503599627370496 in Hlow.
      assert (Hp : 2 ^ 18 <= 2 ^ e) by (apply Z.pow_le_mono_r; lia).
      change (2 ^ 18) with 262144 in Hp. nia.
    + change (2 ^ 17) with 131072. lia.
Qed.

End BeyondFixedNotation.

(** * Further properties of the component *)

Import Session Keyboard Words Shapes.

(** ** The input filter *)

Section InputFilter.

Lemma digit_is_not_point (c : ascii) :
  is_digit c = true -> Ascii.eqb c "." = false.
Proof.
  destruct (Ascii.eqb_spec c ".") as [-> | _]; [discriminate | reflexivity].
Qed.

Lemma strip_point_other (c : ascii) (r : string) :
  Ascii.eqb c "." = false ->
  match String c r with String "." t => t | _ => String c r end = String c r.
Proof.
  destruct c as [[] [] [] [] [] [] [] []]; intros H;
    first [reflexivity | discriminate H].
Qed.

Lemma digits_only_rest (s : string) :
  is_empty (snd (span_digits s))
  = (all_digit_or_point s && Nat.eqb (count_points s) 0)%bool.
Proof.
  induction s as [|c s IH]; [reflexivity |].
  cbn [span_digits all_digit_or_point count_points]. unfold digit_or_point.
  destruct (is_digit c) eqn:Hd.
  - rewrite (digit_is_not_point c Hd).
    destruct (span_digits s) as [d rest]. cbn [snd] in *. rewrite IH.
    reflexivity.
  - cbn [snd orb]. destruct (Ascii.eqb c "."); cbn [is_empty truthy_string negb andb];
      [| reflexivity].
    now rewrite andb_false_r.
Qed.

Lemma input_filter_spec (value : string) :
  input_filter value = plain_decimal value.
Proof.
  unfold input_filter, plain_decimal.
  induction value as [|c s IH]; [reflexivity |].
  cbn [span_digits all_digit_or_point count_points]. unfold digit_or_point.
  destruct (is_digit c) eqn:Hd.
  - rewrite (digit_is_not_point c Hd).
    destruct (span_digits s) as [d r1]. cbn [orb andb Nat.add]. exact IH.
  - cbn [orb]. destruct (Ascii.eqb_spec c ".") as [-> | Hne].
    + cbn [andb].
      pose proof (digits_only_rest s) as Hrest.
      destruct (span_digits s) as [d r3]. cbn [snd] in Hrest.
      rewrite Hrest. destruct (count_points s); reflexivity.
    + rewrite strip_point_other
        by (destruct (Ascii.eqb_spec c "."); [contradiction | reflexivity]).
      cbn [span_digits]. rewrite Hd. reflexivity.
Qed.

(** X1. The filter of [handleInputChange] accepts exactly the texts made
    of digits with at most one decimal point among them; the empty text
    and a lone point are accepted, a sign, an exponent or a second point
    is not. *)
Theorem input_filter_plain_decimal :
  (forall value, input_filter value = plain_decimal value) /\
  input_filter "" = true /\ input_filter "." = true /\
  input_filter "-1" = false /\ input_filter "1e5" = false /\
  input_filter "1.2.3" = false.
Proof.
  split; [exact input_filter_spec |]. split_conj; reflexivity.
Qed.

End InputFilter.

(** ** What an accepted text parses to *)

Section AcceptedTexts.

Lemma binary_round_aux_non_negative (mx ex : Z) (lx : location) :
  0 <= mx -> non_negative (binary_round_aux prec emax false mx ex lx) = true.
Proof.
  intros Hmx.
  pose proof (binary_round_aux_sign_of false mx ex lx) as Hsign.
  revert Hsign. unfold binary_round_aux.
  pose proof (shr_fexp_spec mx ex lx Hmx) as [Hm1 _].
  destruct (shr_fexp prec emax mx ex lx) as [mrs' e'].
  cbn [fst] in Hm1.
  set (m1 := round_nearest_even (shr_m mrs') (loc_of_shr_record mrs')).
  assert (Hm1r : 0 <= m1).
  { pose proof (round_nearest_even_bounds (shr_m mrs')
                  (loc_of_shr_record mrs')) as Hb.
    fold m1 in Hb. rewrite Hm1 in Hb.
    assert (0 <= mx / 2 ^ Z.max 0 (fexp prec emax (Zdigits2 mx + ex) - ex))
      by (apply Z.div_pos; [lia | apply Z.pow_pos_nonneg; lia]).
    lia. }
  pose proof (shr_fexp_spec m1 e' loc_Exact Hm1r) as [Hm2 _].
  destruct (shr_fexp prec emax m1 e' loc_Exact) as [mrs'' e''].
  cbn [fst] in Hm2.
  assert (Hq : 0 <= shr_m mrs'').
  { rewrite Hm2. apply Z.div_pos; [lia | apply Z.pow_pos_nonneg; lia]. }
  destruct (shr_m mrs'') as [|q|q]; [reflexivity | | lia].
  destruct (e'' <=? emax - prec); reflexivity.
Qed.

Lemma SFdiv_core_non_negative (m1 m2 : positive) (e1 e2 : Z) :
  0 <= fst (fst (SFdiv_core_binary prec emax (Zpos m1) e1 (Zpos m2) e2)).
Proof.
  unfold SFdiv_core_binary. cbn [Zdigits2].
  set (ez := Z.min _ _).
  set (m' := match e1 - e2 - ez with
             | 0 => Z.pos m1
             | Z.pos _ => Z.shiftl (Z.pos m1) (e1 - e2 - ez)
             | Z.neg _ => 0
             end).
  assert (Hm' : 0 <= m').
  { subst m'. destruct (e1 - e2 - ez); try lia. apply Z.shiftl_nonneg. lia. }
  pose proof (Z.div_eucl_eq m' (Zpos m2) ltac:(lia)) as Hdm.
  pose proof (Z.mod_pos_bound m' (Zpos m2) ltac:(lia)) as Hrem.
  unfold Z.modulo in Hrem.
  destruct (Z.div_eucl m' (Z.pos m2)) as [q r]. cbn [fst]. nia.
Qed.

Lemma of_decimal_non_negative (m : positive) (e10 : Z) :
  non_negative (of_decimal m e10) = true.
Proof.
  unfold of_decimal. destruct e10 as [|p|p].
  - change (10 ^ 0) with 1. rewrite Z.mul_1_r. cbn [binary_normalize].
    unfold binary_round. destruct (shl_align _ _ _) as [mz ez].
    apply binary_round_aux_non_negative. lia.
  - assert (Hpos : 0 < Z.pos m * 10 ^ Z.pos p)
      by (apply Z.mul_pos_pos; [lia | apply Z.pow_pos_nonneg; lia]).
    destruct (Z.pos m * 10 ^ Z.pos p) as [|q|q]; try lia.
    cbn [binary_normalize].
    unfold binary_round. destruct (shl_align _ _ _) as [mz ez].
    apply binary_round_aux_non_negative. lia.
  - cbn [SFdiv xorb].
    pose proof (SFdiv_core_non_negative m (Pos.pow 10 p) 0 0) as Hq.
    destruct (SFdiv_core_binary prec emax (Z.pos m) 0 (Z.pos (10 ^ p)) 0)
      as [[mz ez] lz].
    apply binary_round_aux_non_negative. exact Hq.
Qed.

Lemma parseFloat_empty : parseFloat "" = NaN.
Proof. reflexivity. Qed.

(** After a first character that is a digit or a point there is no sign
    and no [Infinity] to read. *)
Lemma parseFloat_accepted_shape (value : string) :
  input_filter value = true ->
  parseFloat value = NaN \/ parseFloat value = S754_zero false \/
  exists m e10, parseFloat value = of_decimal m e10.
Proof.
  rewrite input_filter_spec. unfold plain_decimal.
  destruct value as [|c r]; [left; reflexivity |].
  cbn [all_digit_or_point]. intros Hok.
  apply andb_prop in Hok as [Hok _]. apply andb_prop in Hok as [Hc _].
  unfold parseFloat.
  assert (Hshape :
    trim_start (String c r) = String c r /\
    (match String c r with
     | String "-" t => (true, t)
     | String "+" t => (false, t)
     | _ => (false, String c r)
     end) = (false, String c r) /\
    String.prefix "Infinity" (String c r) = false).
  { destruct c as [[] [] [] [] [] [] [] []];
      first [discriminate Hc | repeat split; reflexivity]. }
  destruct Hshape as (Htrim & Hsign & Hinf).
  rewrite Htrim. cbv zeta. rewrite Hsign, Hinf.
  destruct (span_digits (String c r)) as [ip r1].
  destruct (match r1 with
            | String "." t => span_digits t
            | _ => (EmptyString, r1)
            end) as [fp r2].
  destruct (is_empty ip && is_empty fp)%bool; [left; reflexivity |].
  right. destruct (digits_value (ip +:+ fp)) as [|m|m];
    [left; reflexivity | right; eexists _, _; reflexivity | left; reflexivity].
Qed.

Lemma parseFloat_accepted_cases (value : string) :
  input_filter value = true ->
  parseFloat value = NaN \/ non_negative (parseFloat value) = true.
Proof.
  intros Hok.
  destruct (parseFloat_accepted_shape value Hok) as [-> | [-> | (m & e & ->)]];
    [left; reflexivity | right; reflexivity |].
  right. apply of_decimal_non_negative.
Qed.

Lemma of_decimal_mantissa (m0 : positive) (e10 : Z) :
  forall s m e, of_decimal m0 e10 = S754_finite s m e -> Zpos m < 2 ^ 53.
Proof.
  unfold of_decimal. destruct e10 as [|p|p].
  - change (10 ^ 0) with 1. rewrite Z.mul_1_r. cbn [binary_normalize].
    unfold binary_round. destruct (shl_align _ _ _) as [mz ez].
    apply binary_round_aux_mantissa. lia.
  - assert (Hpos : 0 < Z.pos m0 * 10 ^ Z.pos p)
      by (apply Z.mul_pos_pos; [lia | apply Z.pow_pos_nonneg; lia]).
    destruct (Z.pos m0 * 10 ^ Z.pos p) as [|q|q]; try lia.
    cbn [binary_normalize].
    unfold binary_round. destruct (shl_align _ _ _) as [mz ez].
    apply binary_round_aux_mantissa. lia.
  - cbn [SFdiv xorb].
    pose proof (SFdiv_core_non_negative m0 (Pos.pow 10 p) 0 0) as Hq.
    destruct (SFdiv_core_binary prec emax (Z.pos m0) 0 (Z.pos (10 ^ p)) 0)
      as [[mz ez] lz].
    apply binary_round_aux_mantissa. exact Hq.
Qed.

Lemma non_negative_not_lt (x : number) :
  x = NaN \/ non_negative x = true -> lt x zero = false.
Proof.
  intros [-> | Hx]; [reflexivity |].
  destruct (lt x zero) eqn:Hlt; [| reflexivity].
  apply lt_not_ge in Hlt. unfold non_negative in Hx. congruence.
Qed.

Lemma non_negative_le_zero (x : number) :
  x = NaN \/ non_negative x = true -> le x zero = is_zero x.
Proof.
  intros [-> | Hx]; [reflexivity |].
  destruct x as [s | s | | s m e]; try reflexivity.
  - destruct s; [discriminate Hx | reflexivity].
  - destruct s; [discriminate Hx | reflexivity].
Qed.

(** X2. A text that the input filter accepts never parses to a negative
    number, so no field can receive the message "Value cannot be
    negative" for it. *)
Theorem accepted_text_never_negative (name value : string) :
  input_filter value = true ->
  lt (parseFloat value) zero = false /\
  validateField name value <> "Value cannot be negative".
Proof.
  intros Hok.
  pose proof (non_negative_not_lt _ (parseFloat_accepted_cases value Hok))
    as Hlt.
  split; [exact Hlt |].
  unfold validateField. rewrite Hlt.
  repeat match goal with
         | |- context [if ?b then _ else _] => destruct b
         end; discriminate.
Qed.

Lemma accepted_text_never_negative_example :
  lt (parseFloat "12.5") zero = false /\
  validateField "maintenanceCosts" "12.5" <> "Value cannot be negative".
Proof.
  apply (accepted_text_never_negative "maintenanceCosts" "12.5").
  reflexivity.
Defined.

(** X3. For a nonempty accepted text, the four fields that must be
    greater than 0 complain exactly when the text parses to zero; a text
    that parses to NaN, such as a lone point, draws no complaint. *)
Theorem positive_fields_reject_zero (name value : string) :
  input_filter value = true -> value <> "" ->
  In name ["carPrice"; "fuelEfficiency"; "fuelPrice"; "resaleYears"] ->
  truthy_string (validateField name value) = is_zero (parseFloat value).
Proof.
  intros Hok Hne Hname.
  pose proof (non_negative_le_zero _ (parseFloat_accepted_cases value Hok))
    as Hle.
  unfold validateField.
  destruct (String.eqb_spec value "") as [Heq | _]; [contradiction |].
  rewrite Hle.
  cbn [In] in Hname.
  destruct Hname as [<- | [<- | [<- | [<- | []]]]]; cbv iota beta;
    repeat match goal with
           | |- context [String.eqb ?a ?b] =>
               let v := eval vm_compute in (String.eqb a b) in
               change (String.eqb a b) with v
           end; cbv iota;
    destruct (is_zero (parseFloat value)); reflexivity.
Qed.

Lemma positive_fields_reject_zero_example :
  truthy_string (validateField "carPrice" "0.00") = is_zero (parseFloat "0.00").
Proof.
  apply (positive_fields_reject_zero "carPrice" "0.00");
    [reflexivity | discriminate | left; reflexivity].
Defined.

Lemma or_else_non_negative (x d : number) :
  x = NaN \/ non_negative x = true -> non_negative d = true ->
  non_negative (or_else x d) = true.
Proof.
  intros [-> | Hx] Hd; [exact Hd |].
  unfold or_else. destruct (truthy x); assumption.
Qed.

Lemma or_else_one_positive (x : number) :
  x = NaN \/ non_negative x = true -> lt zero (or_else x (of_Z 1)) = true.
Proof.
  intros [-> | Hx]; [reflexivity |].
  destruct x as [s | s | | s m e]; try reflexivity.
  - destruct s; [discriminate Hx | reflexivity].
  - destruct s; [discriminate Hx | reflexivity].
Qed.

Lemma parse_values_non_negative (fd : FormData) :
  all_accepted fd = true ->
  let values := parse_values fd in
  non_negative (v_carPrice values) = true /\
  non_negative (v_fuelEfficiency values) = true /\
  non_negative (v_fuelPrice values) = true /\
  non_negative (v_distanceToWork values) = true /\
  non_negative (v_workingDaysPerMonth values) = true /\
  non_negative (v_maintenanceCosts values) = true /\
  non_negative (v_insuranceCosts values) = true /\
  non_negative (v_resaleValue values) = true /\
  lt zero (v_resaleYears values) = true /\
  non_negative (v_publicTransportCosts values) = true.
Proof.
  unfold all_accepted. cbn [forallb Object_entries snd]. intros Hall.
  repeat match type of Hall with
         | (_ && _)%bool = true =>
             let H := fresh "Hf" in apply andb_prop in Hall as [H Hall]
         end.
  cbv zeta. cbn [parse_values v_carPrice v_fuelEfficiency v_fuelPrice
                 v_distanceToWork v_workingDaysPerMonth v_maintenanceCosts
                 v_insuranceCosts v_resaleValue v_resaleYears
                 v_publicTransportCosts].
  split_conj;
    first [ apply or_else_non_negative;
            [apply parseFloat_accepted_cases; assumption | reflexivity]
          | apply or_else_one_positive;
            apply parseFloat_accepted_cases; assumption ].
Qed.

(** X4. When every field of the form passes the input filter, the ten
    numbers handed to the engine are zero, positive or plus infinity,
    never NaN and never negative, and the number of years until resale is
    strictly positive. *)
Theorem engine_inputs_non_negative (fd : FormData) :
  all_accepted fd = true ->
  let values := parse_values fd in
  non_negative (v_carPrice values) = true /\
  non_negative (v_fuelEfficiency values) = true /\
  non_negative (v_fuelPrice values) = true /\
  non_negative (v_distanceToWork values) = true /\
  non_negative (v_workingDaysPerMonth values) = true /\
  non_negative (v_maintenanceCosts values) = true /\
  non_negative (v_insuranceCosts values) = true /\
  non_negative (v_resaleValue values) = true /\
  lt zero (v_resaleYears values) = true /\
  non_negative (v_publicTransportCosts values) = true.
Proof. exact (parse_values_non_negative fd). Qed.

Lemma engine_inputs_non_negative_scenario :
  let values := parse_values (formData scenario) in
  non_negative (v_carPrice values) = true /\
  non_negative (v_fuelEfficiency values) = true /\
  non_negative (v_fuelPrice values) = true /\
  non_negative (v_distanceToWork values) = true /\
  non_negative (v_workingDaysPerMonth values) = true /\
  non_negative (v_maintenanceCosts values) = true /\
  non_negative (v_insuranceCosts values) = true /\
  non_negative (v_resaleValue values) = true /\
  lt zero (v_resaleYears values) = true /\
  non_negative (v_publicTransportCosts values) = true.
Proof.
  apply (engine_inputs_non_negative (formData scenario)).
  vm_compute. reflexivity.
Defined.

End AcceptedTexts.

(** ** The whole-form validation *)

(** Comparisons of two string literals are evaluated. *)
Ltac eval_string_eqb :=
  repeat match goal with
         | |- context [String.eqb (String ?c ?a) (String ?d ?b)] =>
             let v := eval vm_compute in
                        (String.eqb (String c a) (String d b)) in
             progress change (String.eqb (String c a) (String d b)) with v
         end.

Section WholeForm.

Variable fd : FormData.

Lemma validate_entries_empty (l : list (string * string)) :
  forall acc : gmap string string * bool,
    (snd acc = true <-> fst acc = ∅) ->
    (snd (fold_left validate_entry l acc) = true
     <-> fst (fold_left validate_entry l acc) = ∅).
Proof.
  induction l as [|[name value] l IH]; intros [errs ok] Hacc;
    cbn [fold_left]; [exact Hacc |].
  apply IH. unfold validate_entry.
  destruct (truthy_string (validateField name value)); [| exact Hacc].
  cbn [fst snd]. split; [discriminate |].
  intros Hempty. exfalso. exact (insert_non_empty _ _ _ Hempty).
Qed.

Lemma require_fields_empty (l : list string) :
  forall acc : gmap string string * bool,
    (snd acc = true <-> fst acc = ∅) ->
    (snd (fold_left (require_field fd) l acc) = true
     <-> fst (fold_left (require_field fd) l acc) = ∅).
Proof.
  induction l as [|field l IH]; intros [errs ok] Hacc;
    cbn [fold_left]; [exact Hacc |].
  apply IH. unfold require_field.
  destruct (negb _); [| exact Hacc].
  cbn [fst snd]. split; [discriminate |].
  intros Hempty. exfalso. exact (insert_non_empty _ _ _ Hempty).
Qed.

(** X5. The whole-form validation passes exactly when it records no error
    message at all. *)
Theorem validateForm_passes_iff_no_error :
  snd (validateForm fd) = true <-> fst (validateForm fd) = ∅.
Proof.
  unfold validateForm. apply require_fields_empty.
  apply validate_entries_empty. cbn [fst snd]. split; reflexivity.
Qed.

Lemma lookup_validate_entries (key : string) (l : list (string * string)) :
  forall acc : gmap string string * bool,
    fst (fold_left validate_entry l acc) !! key
    = match recorded_complaint key l with
      | Some error => Some error
      | None => fst acc !! key
      end.
Proof.
  induction l as [|[name value] l IH]; intros [errs ok];
    cbn [fold_left recorded_complaint]; [reflexivity |].
  rewrite IH. destruct (recorded_complaint key l); [reflexivity |].
  unfold validate_entry.
  destruct (truthy_string (validateField name value)); cbn [fst andb].
  - destruct (String.eqb_spec name key) as [-> | Hne].
    + apply lookup_insert_eq.
    + rewrite andb_false_l || idtac. apply lookup_insert_ne. exact Hne.
  - now rewrite andb_false_r.
Qed.

Lemma lookup_require_fields (key : string) (l : list string) :
  forall acc : gmap string string * bool,
    fst (fold_left (require_field fd) l acc) !! key
    = if existsb (fun field => String.eqb field key
                               && negb (field_present fd field))%bool l
      then Some "This field is required"
      else fst acc !! key.
Proof.
  induction l as [|field l IH]; intros [errs ok];
    cbn [fold_left existsb]; [reflexivity |].
  rewrite IH. unfold require_field. fold (field_present fd field).
  destruct (existsb _ l); [now rewrite orb_true_r |].
  rewrite orb_false_r.
  destruct (negb (field_present fd field)); cbn [fst].
  - destruct (String.eqb_spec field key) as [-> | Hne]; cbn [andb].
    + apply lookup_insert_eq.
    + apply lookup_insert_ne. exact Hne.
  - now rewrite andb_false_r.
Qed.

Ltac settle_field :=
  unfold expected_error, field_present, get_field;
  cbn [Object_entries assoc recorded_complaint existsb requiredFields];
  eval_string_eqb; cbv iota; cbn [andb orb];
  match goal with
  | |- context [truthy_string (?f fd)] =>
      destruct (f fd) as [|c v] eqn:Hvalue
  end;
  cbn [truthy_string negb andb orb];
  [ reflexivity
  | match goal with
    | |- context [truthy_string ?e] => destruct (truthy_string e)
    end; reflexivity ].

(** X6. After the whole-form validation each name carries the message
    "This field is required" when it is a required field left empty, the
    complaint of the single-field validator when the field is filled in
    and has one, and no message otherwise; names that are not fields
    carry none. *)
Theorem validateForm_error_map (name : string) :
  fst (validateForm fd) !! name = expected_error fd name.
Proof.
  unfold validateForm.
  rewrite lookup_require_fields, lookup_validate_entries.
  cbn [fst]. rewrite lookup_empty.
  destruct (String.eqb_spec name "carPrice") as [-> | H1]; [settle_field |].
  destruct (String.eqb_spec name "fuelEfficiency") as [-> | H2];
    [settle_field |].
  destruct (String.eqb_spec name "fuelPrice") as [-> | H3]; [settle_field |].
  destruct (String.eqb_spec name "distanceToWork") as [-> | H4];
    [settle_field |].
  destruct (String.eqb_spec name "workingDaysPerMonth") as [-> | H5];
    [settle_field |].
  destruct (String.eqb_spec name "maintenanceCosts") as [-> | H6];
    [settle_field |].
  destruct (String.eqb_spec name "insuranceCosts") as [-> | H7];
    [settle_field |].
  destruct (String.eqb_spec name "resaleValue") as [-> | H8];
    [settle_field |].
  destruct (String.eqb_spec name "resaleYears") as [-> | H9];
    [settle_field |].
  destruct (String.eqb_spec name "publicTransportCosts") as [-> | H10];
    [settle_field |].
  unfold expected_error, get_field.
  cbn [Object_entries assoc recorded_complaint existsb requiredFields].
  repeat match goal with
         | H : name <> ?k |- _ =>
             rewrite ?(proj2 (String.eqb_neq name k) H);
             rewrite ?(proj2 (String.eqb_neq k name) (fun E => H (eq_sym E)));
             clear H
         end.
  reflexivity.
Qed.

End WholeForm.

(** ** What a passed validation guarantees *)

Section Validated.

Lemma positive_when_valid (name value : string) :
  In name ["carPrice"; "fuelEfficiency"; "fuelPrice"] ->
  truthy_string value = true -> entry_valid (name, value) = true ->
  parseFloat value <> NaN ->
  lt zero (or_else (parseFloat value) (of_Z 0)) = true.
Proof.
  intros Hname Hvalue Hentry Hnan.
  assert (Hle : le (parseFloat value) zero = false).
  { revert Hentry. unfold entry_valid, validateField. cbn [fst snd].
    destruct value as [|c v]; [discriminate Hvalue |].
    change (String.eqb (String c v) "") with false. cbv iota zeta.
    cbn [In] in Hname.
    destruct Hname as [<- | [<- | [<- | []]]]; eval_string_eqb; cbv iota;
      destruct (le (parseFloat (String c v)) zero);
      first [reflexivity | discriminate]. }
  pose proof (not_le_zero_positive _ Hle Hnan) as Hpos.
  unfold or_else.
  destruct (parseFloat value) as [s | s | | s m e];
    try discriminate; try contradiction; exact Hpos.
Qed.

Lemma SFcompare_defined (x c : number) :
  x <> NaN -> c <> NaN -> exists o, SFcompare c x = Some o.
Proof.
  destruct x, c; try contradiction; intros _ _; cbn [SFcompare];
    eexists; reflexivity.
Qed.

Lemma not_gt_le (x c : number) :
  x <> NaN -> c <> NaN -> gt x c = false -> le x c = true.
Proof.
  intros Hx Hc. unfold gt, le, SFltb, SFleb.
  rewrite (SFcompare_swap c x).
  destruct (SFcompare_defined x c Hx Hc) as [o ->]. cbn [option_map].
  destruct o; cbn [CompOpp]; congruence.
Qed.

(** The number of working days of a validated form: NaN texts apart, it
    is a finite number above 0 and at most 31. *)
Lemma working_days_when_valid (value : string) :
  truthy_string value = true ->
  entry_valid ("workingDaysPerMonth", value) = true ->
  (parseFloat value = NaN /\ or_else (parseFloat value) (of_Z 0) = of_Z 0) \/
  (exists m e, or_else (parseFloat value) (of_Z 0) = S754_finite false m e /\
               le (S754_finite false m e) (of_Z 31) = true).
Proof.
  intros Hvalue Hentry.
  revert Hentry. unfold entry_valid, validateField. cbn [fst snd].
  destruct value as [|c v]; [discriminate Hvalue |].
  change (String.eqb (String c v) "") with false. cbv iota zeta.
  eval_string_eqb. cbv iota.
  destruct (le (parseFloat (String c v)) zero) eqn:Hle; [discriminate |].
  destruct (gt (parseFloat (String c v)) (of_Z 31)) eqn:Hgt; [discriminate |].
  intros _.
  destruct (parseFloat (String c v)) as [s | s | | s m e] eqn:Hp.
  - discriminate Hle.
  - destruct s; discriminate.
  - left. split; reflexivity.
  - destruct s; [discriminate Hle |].
    right. exists m, e. split; [reflexivity |].
    apply not_gt_le; [discriminate | discriminate | exact Hgt].
Qed.

(** X7. After a passed validation, each of carPrice, fuelEfficiency and
    fuelPrice reaches the engine as a strictly positive number and the
    number of working days as a number above 0 and at most 31, unless the
    text of the field parses to NaN. *)
Theorem validated_required_fields_in_range (fd : FormData) :
  snd (validateForm fd) = true ->
  let values := parse_values fd in
  (parseFloat (carPrice fd) <> NaN -> lt zero (v_carPrice values) = true) /\
  (parseFloat (fuelEfficiency fd) <> NaN ->
   lt zero (v_fuelEfficiency values) = true) /\
  (parseFloat (fuelPrice fd) <> NaN -> lt zero (v_fuelPrice values) = true) /\
  (parseFloat (workingDaysPerMonth fd) <> NaN ->
   lt zero (v_workingDaysPerMonth values) = true /\
   le (v_workingDaysPerMonth values) (of_Z 31) = true).
Proof.
  rewrite validateForm_flag. intros Hok.
  apply andb_prop in Hok as [Hentries Hreq].
  cbn [forallb Object_entries] in Hentries.
  repeat match type of Hentries with
         | (_ && _)%bool = true =>
             let H := fresh "He" in apply andb_prop in Hentries as [H Hentries]
         end.
  unfold requiredFields, field_present, get_field in Hreq.
  cbn [forallb Object_entries assoc] in Hreq.
  revert Hreq. eval_string_eqb. cbv iota. intros Hreq.
  repeat match type of Hreq with
         | (_ && _)%bool = true =>
             let H := fresh "Hp" in apply andb_prop in Hreq as [H Hreq]
         end.
  cbv zeta. cbn [parse_values v_carPrice v_fuelEfficiency v_fuelPrice
                 v_workingDaysPerMonth].
  split_conj.
  - apply (positive_when_valid "carPrice"); [left; reflexivity | |];
      assumption.
  - apply (positive_when_valid "fuelEfficiency");
      [right; left; reflexivity | |]; assumption.
  - apply (positive_when_valid "fuelPrice");
      [right; right; left; reflexivity | |]; assumption.
  - intros Hnan.
    destruct (working_days_when_valid (workingDaysPerMonth fd))
      as [[Hn _] | (m & e & -> & Hle)]; try assumption;
      [contradiction |].
    split; [reflexivity | exact Hle].
Qed.

Lemma validated_required_fields_scenario :
  let values := parse_values (formData scenario) in
  lt zero (v_carPrice values) = true /\
  lt zero (v_workingDaysPerMonth values) = true /\
  le (v_workingDaysPerMonth values) (of_Z 31) = true.
Proof.
  destruct (validated_required_fields_in_range (formData scenario))
    as (Hcar & _ & _ & Hdays).
  - vm_compute. reflexivity.
  - cbv zeta. split; [apply Hcar | apply Hdays]; vm_compute; discriminate.
Defined.

(** X8. When the form passes validation and the distance to work is left
    empty, or its text parses to zero or to NaN, the stored yearly
    emissions are exactly zero. *)
Theorem no_distance_no_emissions (st : State) :
  snd (validateForm (formData st)) = true ->
  truthy (parseFloat (distanceToWork (formData st))) = false ->
  exists r,
    result (calculateCosts st) = Some r /\ yearlyEmissions r = of_Z 0.
Proof.
  intros Hok Hdist.
  eexists. split; [apply calculateCosts_valid; exact Hok |].
  cbn [cost_engine yearlyEmissions].
  assert (Hmonthly : monthlyDistance (parse_values (formData st)) = of_Z 0).
  { unfold monthlyDistance.
    cbn [parse_values v_distanceToWork v_workingDaysPerMonth].
    unfold or_else at 1. rewrite Hdist.
    change (mul (of_Z 0) (of_Z 2)) with (S754_zero false).
    revert Hok. rewrite validateForm_flag. intros Hok.
    apply andb_prop in Hok as [Hentries Hreq].
    cbn [forallb Object_entries] in Hentries.
    do 4 (apply andb_prop in Hentries as [_ Hentries]).
    apply andb_prop in Hentries as [Hdays _].
    unfold requiredFields, field_present, get_field in Hreq.
    cbn [forallb Object_entries assoc] in Hreq.
    revert Hreq. eval_string_eqb. cbv iota. intros Hreq.
    do 3 (apply andb_prop in Hreq as [_ Hreq]).
    apply andb_prop in Hreq as [Hpresent _].
    destruct (working_days_when_valid _ Hpresent Hdays)
      as [[_ ->] | (m & e & -> & _)]; reflexivity. }
  rewrite Hmonthly. vm_compute. reflexivity.
Qed.

Lemma no_distance_no_emissions_small_amounts :
  exists r,
    result (calculateCosts small_amounts) = Some r /\
    yearlyEmissions r = of_Z 0.
Proof.
  apply (no_distance_no_emissions small_amounts); vm_compute; reflexivity.
Defined.

(** X9. Pressing the calculate button twice in a row leaves the state as
    after the first press. *)
Theorem calculateCosts_idempotent (st : State) :
  calculateCosts (calculateCosts st) = calculateCosts st.
Proof.
  unfold calculateCosts.
  destruct (validateForm (formData st)) as [newErrors isValid] eqn:Hv.
  cbn [formData errors result viewMode chartType]. rewrite Hv.
  destruct isValid; reflexivity.
Qed.

End Validated.

(** ** Change events and sessions *)

Section Changes.

Lemma field_names (fd : FormData) (name : string) :
  is_Some (get_field fd name) ->
  In name [ "carPrice"; "fuelEfficiency"; "fuelPrice"; "distanceToWork";
            "workingDaysPerMonth"; "maintenanceCosts"; "insuranceCosts";
            "resaleValue"; "resaleYears"; "publicTransportCosts" ].
Proof.
  unfold get_field. cbn [Object_entries assoc].
  repeat match goal with
         | |- context [String.eqb name ?k] =>
             destruct (String.eqb_spec name k) as [-> | _];
             [intros _; cbn [In]; repeat (first [left; reflexivity | right]) |]
         end.
  intros [v Hv]. discriminate Hv.
Qed.

(** Reading a field back after [{...prev, [name]: value}]. *)
Lemma get_set_field (fd : FormData) (name value other : string) :
  is_Some (get_field fd name) ->
  get_field (set_field fd name value) other
  = if String.eqb other name then Some value else get_field fd other.
Proof.
  intros Hname. apply field_names in Hname. cbn [In] in Hname.
  unfold get_field, set_field.
  cbn [Object_entries assoc carPrice fuelEfficiency fuelPrice distanceToWork
       workingDaysPerMonth maintenanceCosts insuranceCosts resaleValue
       resaleYears publicTransportCosts].
  repeat (destruct Hname as [<- | Hname];
          [ eval_string_eqb; cbv iota;
            repeat match goal with
                   | |- context [String.eqb other ?k] =>
                       destruct (String.eqb_spec other k) as [-> | _];
                       [reflexivity |]
                   end;
            reflexivity |]).
  destruct Hname.
Qed.

(** X10. A change event whose text fails the input filter leaves the
    whole state as it was.  An accepted text for one of the ten inputs is
    stored under that name and no other field changes; the error of that
    name becomes the verdict of the single-field validator, which is the
    empty message for an emptied field; the other errors and the stored
    result stay. *)
Theorem handleInputChange_effect (name value : string) (st : State) :
  (input_filter value = false -> handleInputChange name value st = st) /\
  (input_filter value = true -> is_Some (get_field (formData st) name) ->
   let st' := handleInputChange name value st in
   (forall other,
       get_field (formData st') other
       = if String.eqb other name then Some value
         else get_field (formData st) other) /\
   errors st' !! name = Some (validateField name value) /\
   (forall other, other <> name -> errors st' !! other = errors st !! other) /\
   result st' = result st).
Proof.
  split.
  - intros Hrej. unfold handleInputChange. rewrite Hrej.
    destruct value as [|c v]; [discriminate Hrej | reflexivity].
  - intros Hok Hname. cbv zeta. unfold handleInputChange.
    rewrite Hok, orb_true_r. cbn [formData errors result].
    split; [intros other; apply get_set_field; exact Hname |].
    split.
    + destruct value as [|c v]; cbn [String.eqb negb];
        [| change (String.eqb (String c v) "") with false; cbn [negb]];
        apply lookup_insert_eq.
    + split; [| reflexivity].
      intros other Hne.
      destruct (negb (String.eqb value "")); apply lookup_insert_ne;
        congruence.
Qed.

Lemma handleInputChange_effect_example :
  let st' := handleInputChange "fuelPrice" "101.5" scenario in
  (forall other,
      get_field (formData st') other
      = if String.eqb other "fuelPrice" then Some "101.5"
        else get_field (formData scenario) other) /\
  errors st' !! "fuelPrice" = Some (validateField "fuelPrice" "101.5") /\
  (forall other,
      other <> "fuelPrice" -> errors st' !! other = errors scenario !! other) /\
  result st' = result scenario.
Proof.
  apply (handleInputChange_effect "fuelPrice" "101.5" scenario).
  - reflexivity.
  - vm_compute. eexists. reflexivity.
Defined.

Lemma set_field_accepted (fd : FormData) (name value : string) :
  all_accepted fd = true -> input_filter value = true ->
  all_accepted (set_field fd name value) = true.
Proof.
  unfold all_accepted.
  cbn [forallb Object_entries snd set_field carPrice fuelEfficiency fuelPrice
       distanceToWork workingDaysPerMonth maintenanceCosts insuranceCosts
       resaleValue resaleYears publicTransportCosts].
  intros Hall Hvalue.
  repeat match type of Hall with
         | (_ && _)%bool = true =>
             let H := fresh "Hf" in apply andb_prop in Hall as [H Hall]
         end.
  repeat (apply andb_true_intro; split);
    first [ reflexivity
          | match goal with
            | |- input_filter (if ?b then _ else _) = true =>
                destruct b; assumption
            end ].
Qed.

Lemma step_invariant (st : State) (ev : Event) :
  session_invariant st -> session_invariant (step st ev).
Proof.
  intros [Hfields Hresult]. destruct ev as [name value | | mode | chart];
    cbn [step].
  - unfold handleInputChange.
    destruct (String.eqb value "" || input_filter value)%bool eqn:Hacc;
      [| split; assumption].
    assert (Hvalue : input_filter value = true).
    { destruct (String.eqb_spec value "") as [-> | _];
        [reflexivity | exact Hacc]. }
    split; cbn [formData result]; [| exact Hresult].
    apply set_field_accepted; assumption.
  - split.
    + unfold calculateCosts.
      destruct (validateForm (formData st)) as [newErrors isValid].
      exact Hfields.
    + intros r Hr.
      destruct (snd (validateForm (formData st))) eqn:Hok.
      * rewrite (calculateCosts_valid st Hok) in Hr.
        injection Hr as <-. exists (formData st). repeat split; assumption.
      * rewrite (calculateCosts_invalid st Hok) in Hr. exact (Hresult r Hr).
  - split; assumption.
  - split; assumption.
Qed.

Lemma run_invariant (events : list Event) :
  forall st, session_invariant st -> session_invariant (run events st).
Proof.
  induction events as [|ev events IH]; intros st Hst; [exact Hst |].
  apply IH, step_invariant, Hst.
Qed.

Lemma initial_invariant : session_invariant initialState.
Proof. split; [reflexivity | intros r Hr; discriminate Hr]. Qed.

(** X11. Whatever the user types and presses, every field of the form
    holds a text that passes the input filter: digits with at most one
    decimal point. *)
Theorem session_fields_accepted (events : list Event) :
  all_accepted (formData (run events initialState)) = true.
Proof. exact (proj1 (run_invariant events _ initial_invariant)). Qed.

(** X12. Whatever the user types and presses, a stored result is the
    engine's record for a form that passed the filter and the
    validation; in particular its public transport cost and its
    maintenance cost are zero, positive or infinite, never NaN and never
    negative. *)
Theorem session_result_from_validated_form (events : list Event)
    (r : CalculationResult) :
  result (run events initialState) = Some r ->
  (exists fd,
      all_accepted fd = true /\ snd (validateForm fd) = true /\
      r = cost_engine (parse_values fd)) /\
  non_negative (totalCommuteCost r) = true /\
  non_negative (maintenanceCost r) = true.
Proof.
  intros Hr.
  destruct (proj2 (run_invariant events _ initial_invariant) r Hr)
    as (fd & Hacc & Hok & ->).
  split; [exists fd; repeat split; assumption |].
  pose proof (parse_values_non_negative fd Hacc) as Hvalues.
  cbv zeta in Hvalues. cbn [cost_engine totalCommuteCost maintenanceCost].
  tauto.
Qed.

Lemma session_result_example :
  (exists fd,
      all_accepted fd = true /\ snd (validateForm fd) = true /\
      cost_engine (parse_values (formData small_amounts))
      = cost_engine (parse_values fd)) /\
  non_negative
    (totalCommuteCost (cost_engine (parse_values (formData small_amounts))))
  = true /\
  non_negative
    (maintenanceCost (cost_engine (parse_values (formData small_amounts))))
  = true.
Proof.
  apply (session_result_from_validated_form
           [ Change "carPrice" "5"; Change "fuelEfficiency" "1";
             Change "fuelPrice" "1"; Change "workingDaysPerMonth" "1";
             Change "publicTransportCosts" "1"; Calculate;
             SetViewMode yearly; Change "carPrice" "" ]).
  vm_compute. reflexivity.
Defined.

End Changes.

(** ** The key filter *)

Section Keys.

Lemma all_digit_or_point_append (a b : string) :
  all_digit_or_point (a +:+ b)
  = (all_digit_or_point a && all_digit_or_point b)%bool.
Proof.
  induction a as [|c a IH]; [reflexivity |].
  rewrite append_cons. cbn [all_digit_or_point]. rewrite IH.
  now rewrite andb_assoc.
Qed.

Lemma count_points_append (a b : string) :
  count_points (a +:+ b) = (count_points a + count_points b)%nat.
Proof.
  induction a as [|c a IH]; [reflexivity |].
  rewrite append_cons. cbn [count_points]. rewrite IH. lia.
Qed.

Lemma includes_point_count (s : string) :
  includes_point s = negb (Nat.eqb (count_points s) 0).
Proof.
  induction s as [|c s IH]; [reflexivity |].
  cbn [includes_point count_points]. rewrite IH.
  destruct (Ascii.eqb c "."); reflexivity.
Qed.

(** Which single characters the handler lets through. *)
Lemma onKeyDown_single_character (c : ascii) (value : string) :
  onKeyDown_prevented (String c "") value
  = negb (is_digit c || Ascii.eqb c "." && negb (includes_point value))%bool.
Proof.
  unfold onKeyDown_prevented.
  destruct c as [[] [] [] [] [] [] [] []];
    match goal with
    | |- (if ?b then _ else _) = _ =>
        let v := eval vm_compute in b in change b with v
    end; cbv iota;
    match goal with
    | |- context [is_digit ?k] =>
        let v := eval vm_compute in (is_digit k) in
        change (is_digit k) with v
    end;
    match goal with
    | |- context [Ascii.eqb ?k "."] =>
        let v := eval vm_compute in (Ascii.eqb k ".") in
        change (Ascii.eqb k ".") with v
    end;
    try reflexivity;
    cbn [orb andb negb String.eqb Ascii.eqb Bool.eqb];
    destruct (includes_point value); reflexivity.
Qed.

(** X13. Of the keys that produce a single character, the key handler
    lets through only the digits and a decimal point typed into a text
    that has none yet; such a character, inserted anywhere into a text
    that passes the input filter, gives a text that passes it again. *)
Theorem key_let_through_keeps_text_accepted (c : ascii) (a b : string) :
  onKeyDown_prevented (String c "") (a +:+ b) = false ->
  input_filter (a +:+ b) = true ->
  (is_digit c = true \/ (c = "."%char /\ includes_point (a +:+ b) = false)) /\
  input_filter (a +:+ String c b) = true.
Proof.
  rewrite onKeyDown_single_character, !input_filter_spec.
  unfold plain_decimal.
  rewrite !all_digit_or_point_append, !count_points_append.
  cbn [all_digit_or_point count_points]. unfold digit_or_point.
  rewrite includes_point_count, count_points_append.
  intros Hkey Hok. apply negb_false_iff in Hkey.
  apply andb_prop in Hok as [Hall Hcount].
  apply andb_prop in Hall as [Ha Hb]. apply Nat.leb_le in Hcount.
  rewrite Ha, Hb.
  destruct (is_digit c) eqn:Hd.
  - split; [left; reflexivity |].
    rewrite (digit_is_not_point c Hd). cbn [orb andb].
    apply Nat.leb_le. lia.
  - cbn [orb] in Hkey. apply andb_prop in Hkey as [Hpoint Hnone].
    apply negb_true_iff, negb_false_iff, Nat.eqb_eq in Hnone.
    split.
    + right. split; [apply Ascii.eqb_eq; exact Hpoint |].
      rewrite Hnone. reflexivity.
    + rewrite Hpoint. cbn [orb andb]. apply Nat.leb_le. lia.
Qed.

Lemma key_let_through_example :
  (is_digit "." = true \/
   ("."%char = "."%char /\ includes_point ("12" +:+ "5") = false)) /\
  input_filter ("12" +:+ String "." "5") = true.
Proof.
  apply (key_let_through_keeps_text_accepted "." "12" "5"); reflexivity.
Defined.

End Keys.

(** ** Amounts in words *)

Section InWords.

Variable toWords : number -> option string.

Lemma ge_above (x : number) (m1 m2 : positive) (e1 e2 : Z) :
  ge x (S754_finite false m2 e2) = true -> e1 < e2 ->
  ge x (S754_finite false m1 e1) = true.
Proof.
  unfold ge, SFleb.
  destruct x as [s | s | | s m e]; cbn [SFcompare]; try discriminate.
  - destruct s; [discriminate | reflexivity].
  - destruct s; [discriminate |].
    destruct (Z.compare_spec e2 e) as [He | He | He]; try discriminate;
      intros _ Hlt.
    + subst e. rewrite (proj2 (Z.compare_lt_iff e1 e2)) by lia. reflexivity.
    + rewrite (proj2 (Z.compare_lt_iff e1 e)) by lia. reflexivity.
Qed.

(** A non-negative number with a 53-bit mantissa that is below 1,000
    rounds to the nearest integer, which lies between 0 and 1,000. *)
Lemma Math_round_below_thousand (m : positive) (e : Z) :
  Zpos m < 2 ^ 53 ->
  ge (S754_finite false m e) (of_Z 1000) = false ->
  exists n,
    0 <= n <= 1000 /\ nearest_integer (S754_finite false m e) n /\
    Math_round (S754_finite false m e) = of_Z n.
Proof.
  rewrite of_Z_thousand. unfold ge, SFleb. cbn [SFcompare].
  intros Hm Hge.
  assert (He : e < -43 \/ (e = -43 /\ Zpos m < 8796093022208000)).
  { revert Hge. destruct (Z.compare_spec (-43) e) as [He | He | He];
      try discriminate; [| intros _; left; lia].
    subst e. rewrite compare_cont_Z.
    destruct (Z.compare_spec 8796093022208000 (Zpos m)); try discriminate.
    intros _. right. split; [reflexivity | lia]. }
  clear Hge. change (2 ^ 53) with 9007199254740992 in Hm.
  assert (Hneg : e < 0) by lia.
  unfold Math_round, nearest_integer, numerator, denominator.
  destruct (Z.leb_spec 0 e) as [Hle | _]; [lia |].
  cbn [cond_Zopp].
  rewrite (Z.max_r e 0), (Z.max_l (- e) 0) by lia.
  change (2 ^ 0) with 1. rewrite Z.mul_1_r.
  set (k := - e) in *.
  assert (Hk : 43 <= k) by (subst k; lia).
  assert (Hp : 0 < 2 ^ k) by (apply Z.pow_pos_nonneg; lia).
  assert (Hbound : Zpos m < 1000 * 2 ^ k).
  { destruct He as [He | [He Hlt]].
    - assert (H44 : 2 ^ 44 <= 2 ^ k) by (apply Z.pow_le_mono_r; subst k; lia).
      change (2 ^ 44) with 17592186044416 in H44. lia.
    - assert (Hk43 : k = 43) by (subst k; lia). rewrite Hk43.
      change (2 ^ 43) with 8796093022208. lia. }
  replace (k + 1) with (Z.succ k) by lia.
  rewrite Z.pow_succ_r by lia.
  pose proof (Z.div_mod (2 * Z.pos m + 2 ^ k) (2 * 2 ^ k) ltac:(lia)) as Hdm.
  pose proof (Z.mod_pos_bound (2 * Z.pos m + 2 ^ k) (2 * 2 ^ k) ltac:(lia))
    as Hrem.
  set (n := (2 * Z.pos m + 2 ^ k) / (2 * 2 ^ k)) in *.
  set (r := (2 * Z.pos m + 2 ^ k) mod (2 * 2 ^ k)) in *.
  assert (Hn : 0 <= n <= 1000) by nia.
  exists n. split; [exact Hn |]. split; [nia |].
  destruct (Z.eqb_spec n 0) as [-> | _]; reflexivity.
Qed.

(** X14. For a text that passes the input filter, the line of words
    under an input is empty when the text is empty or parses to NaN and
    "zero" when it parses to zero; from 1,000 on it is the figure of the
    number formatter followed by crores, lakhs or thousand instead of
    Cr, L or K, band by band; below 1,000 it is what the words library
    answers for the integer nearest to the number, which lies between 0
    and 1,000 (empty when the library throws). *)
Theorem convertToWords_outcomes (value : string) :
  input_filter value = true ->
  let number := parseFloat value in
  let words := convertToWords toWords value in
  (value = "" -> words = "") /\
  (number = NaN -> words = "") /\
  (is_zero number = true -> words = "zero") /\
  (ge number (of_Z 10000000) = true ->
   exists figure,
     formatIndianNumber number = figure +:+ " Cr" /\
     words = figure +:+ " crores") /\
  (ge number (of_Z 100000) = true -> lt number (of_Z 10000000) = true ->
   exists figure,
     formatIndianNumber number = figure +:+ " L" /\
     words = figure +:+ " lakhs") /\
  (ge number (of_Z 1000) = true -> lt number (of_Z 100000) = true ->
   exists figure,
     formatIndianNumber number = figure +:+ " K" /\
     words = figure +:+ " thousand") /\
  (is_zero number = false -> lt number (of_Z 1000) = true ->
   exists n,
     0 <= n <= 1000 /\ nearest_integer number n /\
     words = match toWords (of_Z n) with Some w => w | None => "" end).
Proof.
  intros Hok. cbv zeta.
  split; [intros ->; reflexivity |].
  unfold convertToWords.
  destruct value as [|c v];
    [split_conj; first [reflexivity | discriminate] |].
  cbn [truthy_string negb orb].
  pose proof (parseFloat_accepted_cases _ Hok) as Hsign.
  pose proof (parseFloat_accepted_shape _ Hok) as Hshape.
  destruct (parseFloat (String c v)) as [s | s | | s m e] eqn:Hp.
  - split_conj; try discriminate; try reflexivity;
      destruct s; discriminate.
  - destruct Hsign as [Hn | Hs]; [discriminate Hn |].
    destruct s; [discriminate Hs |].
    split_conj; try discriminate.
    intros _. eexists. split; reflexivity.
  - split_conj; try discriminate. reflexivity.
  - destruct Hsign as [Hn | Hs]; [discriminate Hn |].
    destruct s; [discriminate Hs |].
    cbn [isNaN].
    change (strict_eq (S754_finite false m e) (of_Z 0)) with false.
    cbv iota.
    unfold formatIndianWords, formatIndianNumber.
    split_conj; try discriminate.
    + intros Hcr. rewrite Hcr. eexists. split; reflexivity.
    + intros Hl Hlt. rewrite (lt_not_ge _ _ Hlt), Hl.
      eexists. split; reflexivity.
    + intros Hk Hlt. rewrite (lt_not_ge _ _ Hlt), Hk.
      assert (Hcr : ge (S754_finite false m e) (of_Z 10000000) = false).
      { revert Hlt. rewrite of_Z_lakh, of_Z_crore. intros Hlt.
        apply (lt_below _ _ _ _ _ Hlt). lia. }
      rewrite Hcr. eexists. split; reflexivity.
    + intros _ Hlt.
      assert (Hk : ge (S754_finite false m e) (of_Z 1000) = false)
        by exact (lt_not_ge _ _ Hlt).
      rewrite Hk.
      assert (Hl : ge (S754_finite false m e) (of_Z 100000) = false).
      { revert Hlt. rewrite of_Z_thousand, of_Z_lakh. intros Hlt.
        apply (lt_below _ _ _ _ _ Hlt). lia. }
      assert (Hcr : ge (S754_finite false m e) (of_Z 10000000) = false).
      { revert Hlt. rewrite of_Z_thousand, of_Z_crore. intros Hlt.
        apply (lt_below _ _ _ _ _ Hlt). lia. }
      rewrite Hl, Hcr.
      assert (Hm : Zpos m < 2 ^ 53).
      { destruct Hshape as [Hn | [Hz | (m0 & e10 & Hd)]]; try discriminate.
        exact (of_decimal_mantissa m0 e10 _ _ _ (eq_sym Hd)). }
      destruct (Math_round_below_thousand m e Hm Hk) as (n & Hn & Hnear & ->).
      exists n. split; [exact Hn |]. split; [exact Hnear | reflexivity].
Qed.

End InWords.

Lemma convertToWords_outcomes_example :
  let toWords := fun _ : number => Some "nine hundred ninety-nine" in
  exists n,
    0 <= n <= 1000 /\ nearest_integer (parseFloat "999.4") n /\
    convertToWords toWords "999.4"
    = match toWords (of_Z n) with Some w => w | None => "" end.
Proof.
  apply (convertToWords_outcomes
           (fun _ : number => Some "nine hundred ninety-nine") "999.4");
    reflexivity.
Defined.
